(** * PortainerApi: the authenticated client of the Portainer control plane

    A shallow embedding of [src/data/PortainerApi.ts]: the session state, the
    [request] wrapper around axios, the login handshake and the stack
    operations, together with the properties the specification states about
    them.

    Conventions of the embedding.
    - Response bodies are dynamically typed in the source ([AxiosResponse.data]
      is [any], and [request<T>] only casts it), so they are modelled as JS
      values ([JsVal]); numbers are restricted to integers, and objects are
      plain data parsed from JSON (their keys shadow no inherited method).
    - Strings are sequences of code units below 256.
    - A call that throws (a rejected promise of an [async] method) is the
      [Raised] outcome; the two-variant result of the source is [Either].
    - The client instances live in a heap, addressed by their position;
      axios is a step function of the remote world, and every request handed
      to it is logged. *)

From Stdlib Require Import ZArith String Ascii List Bool DecimalString Lia.
From stdpp Require Import base list strings.

Import ListNotations.
Local Open Scope Z_scope.
Set Warnings "-register-all".

(** ** JS values *)

Inductive JsVal : Type :=
| JUndefined
| JNull
| JBool (b : bool)
| JNum (n : Z)
| JStr (s : string)
| JArr (items : list JsVal)
| JObj (fields : list (string * JsVal)).

(** What a throwing expression raises: [new Error(message)], or the
    TypeError of a property read on [null]/[undefined] or of a call of
    something that is no function. *)
Inductive Exn : Type :=
| Error (message : string)
| TypeError.

Inductive Outcome (A : Type) : Type :=
| Returned (a : A)
| Raised (e : Exn).
Arguments Returned {A} a.
Arguments Raised {A} e.

Definition obind {A B} (x : Outcome A) (f : A -> Outcome B) : Outcome B :=
  match x with
  | Returned a => f a
  | Raised e => Raised e
  end.

Module JS.

(** ToBoolean. *)
Definition truthy (v : JsVal) : bool :=
  match v with
  | JUndefined | JNull => false
  | JBool b => b
  | JNum n => negb (n =? 0)
  | JStr s => negb (String.eqb s EmptyString)
  | JArr _ | JObj _ => true
  end.

(** [a || b] *)
Definition or (a b : JsVal) : JsVal := if truthy a then a else b.

(** [typeof v] *)
Definition typeof (v : JsVal) : string :=
  match v with
  | JUndefined => "undefined"
  | JNull => "object"
  | JBool _ => "boolean"
  | JNum _ => "number"
  | JStr _ => "string"
  | JArr _ | JObj _ => "object"
  end.

(** [a === b]. Values of different types differ; primitives compare by
    value. Two objects or arrays are equal only when they are the same
    reference, which never holds between values parsed from two bodies, or
    between a parsed value and a session field. *)
Definition strict_eq (a b : JsVal) : bool :=
  match a, b with
  | JUndefined, JUndefined => true
  | JNull, JNull => true
  | JBool x, JBool y => Bool.eqb x y
  | JNum x, JNum y => x =? y
  | JStr x, JStr y => String.eqb x y
  | _, _ => false
  end.

(** The values that [===] compares by value. *)
Definition primitive (v : JsVal) : bool :=
  match v with
  | JArr _ | JObj _ => false
  | _ => true
  end.

Fixpoint lookup_field (key : string) (fields : list (string * JsVal)) : JsVal :=
  match fields with
  | [] => JUndefined
  | (k, v) :: rest => if String.eqb k key then v else lookup_field key rest
  end.

(** [v.key] for a key that no prototype defines: a TypeError on [null] and
    [undefined], the field of an object, [undefined] otherwise. *)
Definition member (v : JsVal) (key : string) : Outcome JsVal :=
  match v with
  | JUndefined | JNull => Raised TypeError
  | JObj fields => Returned (lookup_field key fields)
  | _ => Returned JUndefined
  end.

(** Number-to-string, for the integers that print in plain decimal (those
    below 10^21 in absolute value; from there on the source would print an
    exponent). *)
Definition number_to_string (n : Z) : string :=
  NilZero.string_of_int (Z.to_int n).

Fixpoint join (sep : string) (parts : list string) : string :=
  match parts with
  | [] => EmptyString
  | [p] => p
  | p :: rest => p +:+ sep +:+ join sep rest
  end.

(** ToString: what a template literal and [Array.prototype.join] apply to
    an element. An array joins its elements with a comma, [null] and
    [undefined] elements giving the empty string. *)
Fixpoint to_string (v : JsVal) : string :=
  match v with
  | JUndefined => "undefined"
  | JNull => "null"
  | JBool true => "true"
  | JBool false => "false"
  | JNum n => number_to_string n
  | JStr s => s
  | JArr items =>
      join ","
        ((fix elems (l : list JsVal) : list string :=
            match l with
            | [] => []
            | JUndefined :: l' => EmptyString :: elems l'
            | JNull :: l' => EmptyString :: elems l'
            | x :: l' => to_string x :: elems l'
            end) items)
  | JObj _ => "[object Object]"
  end.

(** [String.prototype.trim]: the white space and line terminators among
    the code units below 256 are TAB, LF, VT, FF, CR, SPACE and NBSP. *)
Definition is_space (c : ascii) : bool :=
  let n := nat_of_ascii c in
  ((9 <=? n) && (n <=? 13) || (n =? 32) || (n =? 160))%nat.

Fixpoint drop_while_start (p : ascii -> bool) (s : string) : string :=
  match s with
  | EmptyString => EmptyString
  | String c s' => if p c then drop_while_start p s' else s
  end.

Fixpoint drop_while_end (p : ascii -> bool) (s : string) : string :=
  match s with
  | EmptyString => EmptyString
  | String c s' =>
      match drop_while_end p s' with
      | EmptyString => if p c then EmptyString else String c EmptyString
      | r => String c r
      end
  end.

Definition trim (s : string) : string :=
  drop_while_end is_space (drop_while_start is_space s).

(** [s.startsWith(prefix)] *)
Definition startsWith (s prefix : string) : bool := String.prefix prefix s.

(** [JSON.stringify] of a value that is no function: strings are quoted
    with the two-character escapes and [\u00xx] for the other control
    characters, [undefined] is [null] inside an array and drops the field
    of an object. ([JSON.stringify(undefined)] itself is no string; the
    source serializes values whose [typeof] is object only.) *)
Definition dquote : string := String (ascii_of_nat 34) EmptyString.

Definition hex_digit (n : nat) : ascii :=
  if (n <? 10)%nat then ascii_of_nat (48 + n) else ascii_of_nat (87 + n).

Definition json_escape_char (c : ascii) : string :=
  let n := nat_of_ascii c in
  if (n =? 34)%nat then "\" +:+ dquote
  else if (n =? 92)%nat then "\\"
  else if (n =? 8)%nat then "\b"
  else if (n =? 9)%nat then "\t"
  else if (n =? 10)%nat then "\n"
  else if (n =? 12)%nat then "\f"
  else if (n =? 13)%nat then "\r"
  else if (n <? 32)%nat then
    "\u00" +:+ String (hex_digit (n / 16)) (String (hex_digit (n mod 16)) EmptyString)
  else String c EmptyString.

Fixpoint json_escape (s : string) : string :=
  match s with
  | EmptyString => EmptyString
  | String c s' => json_escape_char c +:+ json_escape s'
  end.

Definition json_quote (s : string) : string := dquote +:+ json_escape s +:+ dquote.

Fixpoint stringify (v : JsVal) : string :=
  match v with
  | JUndefined | JNull => "null"
  | JBool true => "true"
  | JBool false => "false"
  | JNum n => number_to_string n
  | JStr s => json_quote s
  | JArr items =>
      "[" +:+ join "," ((fix elems (l : list JsVal) : list string :=
                           match l with
                           | [] => []
                           | x :: l' => stringify x :: elems l'
                           end) items) +:+ "]"
  | JObj fields =>
      "{" +:+ join "," ((fix members (l : list (string * JsVal)) : list string :=
                           match l with
                           | [] => []
                           | (_, JUndefined) :: l' => members l'
                           | (k, x) :: l' =>
                               (json_quote k +:+ ":" +:+ stringify x) :: members l'
                           end) fields) +:+ "}"
  end.

(** [_.compact(values).join(sep)] *)
Definition compact (values : list JsVal) : list JsVal := List.filter truthy values.

Definition compact_join (sep : string) (values : list JsVal) : string :=
  join sep (List.map to_string (compact values)).

End JS.

(** ** The result type *)

(** Modelled from the spec: the class [Either] of [src/utils/Either.ts] is
    not among the sources. It is the two-variant container of section 3,
    exactly one of [Success(T)] or [Error(E)], with [map] (transform the
    success value), [flatMap] (chain a dependent fallible operation),
    [match] (fold over both variants) and the test [isError]. *)
Module Either.

Inductive t (E T : Type) : Type :=
| error (e : E)
| success (value : T).
Arguments error {E T} e.
Arguments success {E T} value.

Definition isError {E T} (r : t E T) : bool :=
  match r with error _ => true | success _ => false end.

Definition isSuccess {E T} (r : t E T) : bool := negb (isError r).

Definition match_ {E T R} (r : t E T) (on_error : E -> R) (on_success : T -> R) : R :=
  match r with
  | error e => on_error e
  | success v => on_success v
  end.

Definition map {E T U} (f : T -> U) (r : t E T) : t E U :=
  match_ r error (fun v => success (f v)).

Definition flatMap {E T U} (f : T -> t E U) (r : t E T) : t E U :=
  match_ r error f.

End Either.

Abbreviation Either := Either.t.

(** ** Axios, as far as the client uses it *)

Module Axios.

(** An [AxiosRequestConfig]: an object of optional fields. The client sets
    [validateStatus] to the constant [true] on every call; it is not a
    field here, and a [Response] below is delivered whatever its status. *)
Record Config : Type := {
  method : option string;
  url : option string;
  headers : option (list (string * string));
  data : option JsVal;
  params : option JsVal
}.

Definition empty : Config :=
  {| method := None; url := None; headers := None; data := None; params := None |}.

Definition field {A} (a b : option A) : option A :=
  match b with Some _ => b | None => a end.

(** [{ ...a, ...b }] *)
Definition spread (a b : Config) : Config :=
  {| method := field (method a) (method b);
     url := field (url a) (url b);
     headers := field (headers a) (headers b);
     data := field (data a) (data b);
     params := field (params a) (params b) |}.

(** What the promise of [axios(config)] rejects with: an [Error] instance
    (of the given [name] and [message]), or a falsy value. *)
Inductive Reason : Type :=
| ErrorObject (name message : string)
| Falsy.

(** [Error.prototype.toString] *)
Definition error_toString (name message : string) : string :=
  if String.eqb name EmptyString then message
  else if String.eqb message EmptyString then name
  else name +:+ ": " +:+ message.

Inductive Result : Type :=
| Response (status : Z) (body : JsVal)
| Rejected (err : Reason).

End Axios.

(** ** The client *)

Record ConstructorOptions : Type := { baseUrl : string }.

(** [type State = { type: not-logged } | { type: logged; endpointId; token }].
    The fields hold whatever the login responses carried. *)
Inductive State : Type :=
| not_logged
| logged (endpointId : JsVal) (token : JsVal).

Record PortainerApi : Type := {
  options : ConstructorOptions;
  apiUrl : string;
  state : State
}.

(** [options.baseUrl.replace(/\/*$/, empty)]: the pattern matches the run of
    slashes that ends the string, and the replacement removes it. *)
Definition strip_trailing_slashes (s : string) : string :=
  JS.drop_while_end (fun c => Ascii.eqb c "/") s.

(** The constructor; [state || { type: not-logged }] keeps a given state,
    an object being truthy. *)
Definition constructor (options : ConstructorOptions) (state : option State) : PortainerApi :=
  let baseUrl := strip_trailing_slashes (baseUrl options) in
  {| options := options;
     apiUrl := baseUrl +:+ "/api";
     state := match state with Some s => s | None => not_logged end |}.

Definition getLoggedInData (this : PortainerApi) : Outcome (JsVal * JsVal) :=
  match state this with
  | logged endpointId token => Returned (endpointId, token)
  | not_logged => Raised (Error "Not logged in")
  end.

Definition getUrl (this : PortainerApi) (path : string) : string :=
  let path2 := if JS.startsWith path "/" then path else "/" +:+ path in
  apiUrl this +:+ path2.

Definition get_baseUrl (this : PortainerApi) : string := baseUrl (options this).

Definition get_token (this : PortainerApi) : Outcome JsVal :=
  obind (getLoggedInData this) (fun d => Returned (snd d)).

Definition get_endpointId (this : PortainerApi) : Outcome JsVal :=
  obind (getLoggedInData this) (fun d => Returned (fst d)).

(** ** Calls: the heap of instances, the remote world and the request log *)

Section Client.

Context {World : Type}.

(** One call of [axios(config)]: the remote answers, or the call fails,
    and the world moves on. *)
Variable axios : World -> Axios.Config -> Axios.Result * World.

Record Sys : Type := {
  heap : list PortainerApi;
  world : World;
  issued : list Axios.Config
}.

Definition M (A : Type) : Type := Sys -> Outcome A * Sys.

Definition ret {A} (a : A) : M A := fun s => (Returned a, s).

Definition bind {A B} (m : M A) (f : A -> M B) : M B :=
  fun s =>
    match m s with
    | (Returned a, s') => f a s'
    | (Raised e, s') => (Raised e, s')
    end.

Definition lift {A} (x : Outcome A) : M A := fun s => (x, s).

Notation "x <- m ;; k" := (bind m (fun x => k))
  (at level 100, m at next level, right associativity).

(** [r.map(f)] and [r.flatMap(f)] of [Either], for a callback that may
    throw or allocate. *)
Definition Either_map {E T U} (r : Either E T) (f : T -> M U) : M (Either E U) :=
  Either.match_ r (fun e => ret (Either.error e))
    (fun v => u <- f v ;; ret (Either.success u)).

Definition Either_flatMap {E T U} (r : Either E T) (f : T -> M (Either E U))
    : M (Either E U) :=
  Either.match_ r (fun e => ret (Either.error e)) f.

(** Reading [this]: a method called on no object is a TypeError. *)
Definition deref (self : nat) : M PortainerApi :=
  fun s =>
    match heap s !! self with
    | Some this => (Returned this, s)
    | None => (Raised TypeError, s)
    end.

(** [this.state = st] *)
Definition set_state (self : nat) (st : State) : M unit :=
  this <- deref self ;;
  fun s =>
    (Returned tt,
     {| heap := <[self := {| options := options this; apiUrl := apiUrl this; state := st |}]> (heap s);
        world := world s;
        issued := issued s |}).

(** [new PortainerApi(options, state)] *)
Definition new_PortainerApi (options : ConstructorOptions) (state : option State) : M nat :=
  fun s =>
    (Returned (length (heap s)),
     {| heap := heap s ++ [constructor options state];
        world := world s;
        issued := issued s |}).

(** [await axios(config)]; a rejection is what the [catch] receives. *)
Definition await_axios (config : Axios.Config) : M Axios.Result :=
  fun s =>
    let (result, w) := axios (world s) config in
    (Returned result,
     {| heap := heap s; world := w; issued := issued s ++ [config] |}).

(** *** request *)

(** [err ? err.message || err.toString() : Unknown error] *)
Definition catch_message (err : Axios.Reason) : string :=
  match err with
  | Axios.ErrorObject name message =>
      if String.eqb message EmptyString then Axios.error_toString name message
      else message
  | Axios.Falsy => "Unknown error"
  end.

(** [(status >= 200 && status < 300) || [304].includes(status)] *)
Definition status_ok (status : Z) : bool :=
  (200 <=? status) && (status <? 300) || existsb (Z.eqb status) [304].

(** The message of a response that is no success. *)
Definition error_body_message (body : JsVal) : Outcome string :=
  if String.eqb (JS.typeof body) "string" then
    Returned (JS.trim (JS.to_string body))
  else if String.eqb (JS.typeof body) "object" then
    obind (JS.member body "message") (fun message =>
    obind (JS.member body "details") (fun details =>
      let joined := JS.compact_join ": " [message; details] in
      Returned (if String.eqb joined EmptyString then JS.stringify body else joined)))
  else
    Returned "Unknown error".

Definition request_config (this : PortainerApi) (method url : string)
    (baseRequest : Axios.Config) (token : JsVal) : Axios.Config :=
  let token2 :=
    JS.or token (match state this with logged _ t => t | not_logged => JNull end) in
  let request :=
    Axios.spread baseRequest
      {| Axios.method := Some method; Axios.url := Some (getUrl this url);
         Axios.headers := None; Axios.data := None; Axios.params := None |} in
  Axios.spread
    {| Axios.method := Some "GET";
       Axios.url := None;
       Axios.headers :=
         Some (if JS.truthy token2
               then [("Authorization", "Bearer " +:+ JS.to_string token2)]
               else []);
       Axios.data := None; Axios.params := None |}
    request.

(** What [request] returns once axios has answered: the [catch] of a
    failed call, then the test of the status. *)
Definition settle (response : Axios.Result) : Outcome (Either string JsVal) :=
  match response with
  | Axios.Rejected err => Returned (Either.error (catch_message err))
  | Axios.Response status body =>
      if status_ok status then Returned (Either.success body)
      else
        obind (error_body_message body) (fun msg =>
          let fullMsg := JS.compact_join " - " [JNum status; JStr msg] in
          Returned (Either.error fullMsg))
  end.

Definition request (self : nat) (method url : string)
    (baseRequest : Axios.Config) (token : JsVal) : M (Either string JsVal) :=
  this <- deref self ;;
  response <- await_axios (request_config this method url baseRequest token) ;;
  lift (settle response).

(** *** The public interface *)

Definition token (self : nat) : M JsVal :=
  this <- deref self ;; lift (get_token this).

Definition endpointId (self : nat) : M JsVal :=
  this <- deref self ;; lift (get_endpointId this).

Definition clearSession (self : nat) : M unit :=
  set_state self not_logged.

Definition setSession (self : nat) (token : string) (endpointId : Z) : M unit :=
  set_state self (logged (JNum endpointId) (JStr token)).

(** [array.find(pred)], with a predicate that may throw; a TypeError when
    the receiver is no array. *)
Fixpoint find_items (pred : JsVal -> Outcome bool) (items : list JsVal) : Outcome JsVal :=
  match items with
  | [] => Returned JUndefined
  | x :: rest =>
      obind (pred x) (fun hit => if hit then Returned x else find_items pred rest)
  end.

Definition js_find (pred : JsVal -> Outcome bool) (v : JsVal) : Outcome JsVal :=
  match v with
  | JArr items => find_items pred items
  | _ => Raised TypeError
  end.

(** [array.filter(pred)] *)
Fixpoint filter_items (pred : JsVal -> Outcome bool) (items : list JsVal)
    : Outcome (list JsVal) :=
  match items with
  | [] => Returned []
  | x :: rest =>
      obind (pred x) (fun keep =>
      obind (filter_items pred rest) (fun kept =>
        Returned (if keep then x :: kept else kept)))
  end.

Definition js_filter (pred : JsVal -> Outcome bool) (v : JsVal) : Outcome JsVal :=
  match v with
  | JArr items => obind (filter_items pred items) (fun kept => Returned (JArr kept))
  | _ => Raised TypeError
  end.

(** The callback that [login] hands to [flatMap]: the endpoint of the
    given name is looked up in the list, and a second client is built. *)
Definition login_resolve (self : nat) (endpointName : string) (token : JsVal)
    (endpoints : JsVal) : M (Either string nat) :=
  endpoint <-
    lift (js_find
            (fun endpoint =>
               obind (JS.member endpoint "Name") (fun name =>
                 Returned (JS.strict_eq name (JStr endpointName))))
            endpoints) ;;
  if JS.truthy endpoint then
    id <- lift (JS.member endpoint "Id") ;;
    let newState := logged id token in
    this <- deref self ;;
    newApi <- new_PortainerApi (options this) (Some newState) ;;
    ret (Either.success newApi)
  else
    ret (Either.error ("Cannot find endpoint '" +:+ endpointName +:+ "'")).

Definition login (self : nat) (username password endpointName : string)
    : M (Either string nat) :=
  let data := JObj [("Username", JStr username); ("Password", JStr password)] in
  loginResponse <-
    request self "POST" "/auth"
      {| Axios.method := None; Axios.url := None; Axios.headers := None;
         Axios.data := Some data; Axios.params := None |} JUndefined ;;
  Either.match_ loginResponse
    (fun msg => ret (Either.error msg))
    (fun loginResponse =>
       token <- lift (JS.member loginResponse "jwt") ;;
       endpointsRes <- request self "GET" "/endpoints" Axios.empty token ;;
       Either_flatMap endpointsRes (login_resolve self endpointName token)).

Definition getStacks (self : nat) : M (Either string JsVal) :=
  res <- request self "GET" "/stacks" Axios.empty JUndefined ;;
  endpointId <- endpointId self ;;
  Either_map res (fun allStacks =>
    lift (js_filter
            (fun stack =>
               obind (JS.member stack "EndpointId") (fun id =>
                 Returned (JS.strict_eq id endpointId)))
            allStacks)).

Fixpoint deleteStacks (self : nat) (stackIds : list Z) : M (Either string JsVal) :=
  match stackIds with
  | [] => ret (Either.success JUndefined)
  | stackId :: rest =>
      res <-
        request self "DELETE" ("/stacks/" +:+ JS.number_to_string stackId)
          Axios.empty JUndefined ;;
      if Either.isError res then ret res else deleteStacks self rest
  end.

End Client.

(** ** The other operations of the public interface *)

Section Operations.

Context {World : Type}.
Variable axios : World -> Axios.Config -> Axios.Result * World.

Notation "x <- m ;; k" := (bind m (fun x => k))
  (at level 100, m at next level, right associativity).

(** The template literal of the path reads [this.endpointId] before
    [request] is entered: on a client that is not logged the getter throws
    first. *)
Definition startContainer (self : nat) (containerId : string) : M (Either string JsVal) :=
  endpoint <- endpointId self ;;
  request axios self "POST"
    ("/endpoints/" +:+ JS.to_string endpoint +:+ "/docker/containers/"
       +:+ containerId +:+ "/start")
    Axios.empty JUndefined.

Definition stopContainer (self : nat) (containerId : string) : M (Either string JsVal) :=
  endpoint <- endpointId self ;;
  request axios self "POST"
    ("/endpoints/" +:+ JS.to_string endpoint +:+ "/docker/containers/"
       +:+ containerId +:+ "/stop")
    Axios.empty JUndefined.

Definition getStack (self : nat) (id : Z) : M (Either string JsVal) :=
  request axios self "GET" ("/stacks/" +:+ JS.number_to_string id) Axios.empty JUndefined.

Definition createStack (self : nat) (newStackApi : JsVal) : M (Either string JsVal) :=
  endpoint <- endpointId self ;;
  let url :=
    "/stacks?endpointId=" +:+ JS.to_string endpoint +:+ "&method=repository&type=2" in
  request axios self "POST" url
    {| Axios.method := None; Axios.url := None; Axios.headers := None;
       Axios.data := Some newStackApi; Axios.params := None |}
    JUndefined.

Definition setPermission (self : nat) (resourceId : Z) (permission : JsVal)
    : M (Either string JsVal) :=
  request axios self "PUT" ("/resource_controls/" +:+ JS.number_to_string resourceId)
    {| Axios.method := None; Axios.url := None; Axios.headers := None;
       Axios.data := Some permission; Axios.params := None |}
    JUndefined.

Definition getContainers (self : nat) (all : bool) : M (Either string JsVal) :=
  endpoint <- endpointId self ;;
  request axios self "GET"
    ("/endpoints/" +:+ JS.to_string endpoint +:+ "/docker/containers/json")
    {| Axios.method := None; Axios.url := None; Axios.headers := None;
       Axios.data := None; Axios.params := Some (JObj [("all", JBool all)]) |}
    JUndefined.

Definition getTeams (self : nat) : M (Either string JsVal) :=
  request axios self "GET" "/teams" Axios.empty JUndefined.

Definition getUsers (self : nat) : M (Either string JsVal) :=
  request axios self "GET" "/users" Axios.empty JUndefined.

End Operations.

(** ** Vocabulary of the statements *)

(** [n] slashes. *)
Fixpoint slashes (n : nat) : string :=
  match n with
  | O => EmptyString
  | S n' => String "/" (slashes n')
  end.

Fixpoint last_char (s : string) : option ascii :=
  match s with
  | EmptyString => None
  | String c EmptyString => Some c
  | String _ s' => last_char s'
  end.

(** The message of a failed response, case by case on its body: a string
    is trimmed; an object gives its truthy [message] and [details] joined
    by a colon and a space, or its JSON text when that is empty; an array,
    which has neither field, gives its JSON text; [undefined], a boolean or
    a number gives the fallback. The body [null] has no case. *)
Inductive BodyMessage : JsVal -> string -> Prop :=
| message_of_string (text : string) :
    BodyMessage (JStr text) (JS.trim text)
| message_of_fields (fields : list (string * JsVal)) (joined : string) :
    joined =
      JS.join ": "
        (List.map JS.to_string
           (List.filter JS.truthy
              [JS.lookup_field "message" fields; JS.lookup_field "details" fields])) ->
    joined <> EmptyString ->
    BodyMessage (JObj fields) joined
| message_of_object (fields : list (string * JsVal)) :
    JS.join ": "
      (List.map JS.to_string
         (List.filter JS.truthy
            [JS.lookup_field "message" fields; JS.lookup_field "details" fields]))
      = EmptyString ->
    BodyMessage (JObj fields) (JS.stringify (JObj fields))
| message_of_array (items : list JsVal) :
    BodyMessage (JArr items) (JS.stringify (JArr items))
| message_of_undefined : BodyMessage JUndefined "Unknown error"
| message_of_boolean (b : bool) : BodyMessage (JBool b) "Unknown error"
| message_of_number (n : Z) : BodyMessage (JNum n) "Unknown error".

(** The status and the message joined by a dash between spaces, a zero
    status or an empty message being left out with the separator. *)
Definition status_prefixed (status : Z) (msg : string) : string :=
  if status =? 0 then msg
  else if String.eqb msg EmptyString then JS.number_to_string status
  else JS.number_to_string status +:+ " - " +:+ msg.

(** The message of a failed request, from what axios delivered: of a thrown
    error its message, or what its [toString] gives when the message is
    empty (its name); of a thrown falsy value the fallback, in both cases
    without a status; of a response whose status is no success the message
    of its body behind the status. *)
Inductive ErrorMessage : Axios.Result -> string -> Prop :=
| thrown_message (name message : string) :
    message <> EmptyString ->
    ErrorMessage (Axios.Rejected (Axios.ErrorObject name message)) message
| thrown_toString (name : string) :
    ErrorMessage (Axios.Rejected (Axios.ErrorObject name EmptyString)) name
| thrown_falsy :
    ErrorMessage (Axios.Rejected Axios.Falsy) "Unknown error"
| failed_response (status : Z) (body : JsVal) (msg : string) :
    status_ok status = false ->
    BodyMessage body msg ->
    ErrorMessage (Axios.Response status body) (status_prefixed status msg).

(** The two rules of the error message as the specification words them:
    the message of what was thrown or else the fallback, and the status
    always joined in front. *)
Definition spec_thrown_message (err : Axios.Reason) : string :=
  match err with
  | Axios.ErrorObject _ message =>
      if String.eqb message EmptyString then "Unknown error" else message
  | Axios.Falsy => "Unknown error"
  end.

Definition spec_status_prefixed (status : Z) (msg : string) : string :=
  JS.number_to_string status +:+ " - " +:+ msg.

(** The configurations [request] hands to axios for the calls of [login]
    and of [deleteStacks]. *)
Definition auth_config (this : PortainerApi) (username password : string) : Axios.Config :=
  request_config this "POST" "/auth"
    {| Axios.method := None; Axios.url := None; Axios.headers := None;
       Axios.data := Some (JObj [("Username", JStr username); ("Password", JStr password)]);
       Axios.params := None |}
    JUndefined.

Definition endpoints_config (this : PortainerApi) (token : JsVal) : Axios.Config :=
  request_config this "GET" "/endpoints" Axios.empty token.

Definition delete_config (this : PortainerApi) (stackId : Z) : Axios.Config :=
  request_config this "DELETE" ("/stacks/" +:+ JS.number_to_string stackId)
    Axios.empty JUndefined.

(** The stacks of a list were deleted one after the other, each DELETE
    returning Success; the relation links the states before and after. *)
Inductive Deleted {World : Type} (axios : World -> Axios.Config -> Axios.Result * World)
    (self : nat) : list Z -> @Sys World -> @Sys World -> Prop :=
| deleted_none (s : Sys) : Deleted axios self [] s s
| deleted_next (stackId : Z) (rest : list Z) (s s1 s2 : Sys) (body : JsVal) :
    request axios self "DELETE" ("/stacks/" +:+ JS.number_to_string stackId)
      Axios.empty JUndefined s = (Returned (Either.success body), s1) ->
    Deleted axios self rest s1 s2 ->
    Deleted axios self (stackId :: rest) s s2.

(** The test of [getStacks] on one stack that is neither [null] nor
    [undefined]: its [EndpointId] is strictly equal to the one given. *)
Definition on_endpoint (endpointId stack : JsVal) : bool :=
  match JS.member stack "EndpointId" with
  | Returned id => JS.strict_eq id endpointId
  | Raised _ => false
  end.

(** ** A remote that answers from a script

    The world is the list of the answers still to give; a call past the end
    of the script fails like a lost connection. *)
Definition scripted (script : list Axios.Result) (config : Axios.Config)
    : Axios.Result * list Axios.Result :=
  match script with
  | [] => (Axios.Rejected (Axios.ErrorObject "Error" "Network Error"), [])
  | answer :: rest => (answer, rest)
  end.

(** One client, freshly constructed or restored, facing a script. *)
Definition boot (baseUrl : string) (state : option State) (script : list Axios.Result)
    : @Sys (list Axios.Result) :=
  {| heap := [constructor {| baseUrl := baseUrl |} state]; world := script; issued := [] |}.

(** ** A remote that keeps stacks

    It holds the ids of its stacks, some of which it refuses to delete;
    a DELETE of /stacks/id removes the stack, and answers 204. *)
Record Remote : Type := {
  remote_stacks : list Z;
  remote_locked : list Z
}.

Definition stack_server (apiUrl : string) (remote : Remote) (config : Axios.Config)
    : Axios.Result * Remote :=
  match Axios.method config, Axios.url config with
  | Some method, Some url =>
      if String.eqb method "DELETE" then
        match List.find
                (fun id => String.eqb url (apiUrl +:+ "/stacks/" +:+ JS.number_to_string id))
                (remote_stacks remote) with
        | Some id =>
            if existsb (Z.eqb id) (remote_locked remote) then
              (Axios.Response 500 (JObj [("message", JStr "stack is locked")]), remote)
            else
              (Axios.Response 204 (JStr EmptyString),
               {| remote_stacks := List.filter (fun x => negb (x =? id)) (remote_stacks remote);
                  remote_locked := remote_locked remote |})
        | None => (Axios.Response 404 (JObj [("message", JStr "stack not found")]), remote)
        end
      else (Axios.Response 405 (JStr "Method Not Allowed"), remote)
  | _, _ => (Axios.Rejected (Axios.ErrorObject "Error" "Network Error"), remote)
  end.

(** * Properties *)

(** ** Values and strings *)

Lemma strict_eq_true (a b : JsVal) : JS.strict_eq a b = true -> a = b.
Proof.
  destruct a, b; simpl; try discriminate; try reflexivity; intros H.
  - apply Bool.eqb_prop in H. congruence.
  - apply Z.eqb_eq in H. congruence.
  - apply String.eqb_eq in H. congruence.
Qed.

Lemma strict_eq_refl (v : JsVal) : JS.primitive v = true -> JS.strict_eq v v = true.
Proof.
  destruct v; simpl; try discriminate; intros _; try reflexivity.
  - destruct b; reflexivity.
  - apply Z.eqb_refl.
  - apply String.eqb_refl.
Qed.

Lemma strict_eq_num (v : JsVal) (n : Z) : JS.strict_eq v (JNum n) = true <-> v = JNum n.
Proof.
  split; [apply strict_eq_true |].
  intros ->. simpl. apply Z.eqb_refl.
Qed.

Lemma strict_eq_str (v : JsVal) (x : string) : JS.strict_eq v (JStr x) = true <-> v = JStr x.
Proof.
  split; [apply strict_eq_true |].
  intros ->. simpl. apply String.eqb_refl.
Qed.

Lemma strict_eq_str_false (v : JsVal) (x : string) :
  v <> JStr x -> JS.strict_eq v (JStr x) = false.
Proof.
  intros Hne. destruct (JS.strict_eq v (JStr x)) eqn:E; [| reflexivity].
  apply strict_eq_str in E. contradiction.
Qed.

Lemma status_ok_spec (status : Z) :
  status_ok status = true <-> (200 <= status < 300) \/ status = 304.
Proof.
  unfold status_ok. simpl. rewrite orb_false_r.
  rewrite orb_true_iff, andb_true_iff, Z.leb_le, Z.ltb_lt, Z.eqb_eq. tauto.
Qed.

Lemma status_ok_false (status : Z) :
  status_ok status = false <-> ~ ((200 <= status < 300) \/ status = 304).
Proof.
  rewrite <- status_ok_spec. destruct (status_ok status); split; intros H;
    try reflexivity; try discriminate; try (intros H'; discriminate).
  exfalso. apply H. reflexivity.
Qed.

(** ** The request wrapper *)

Section RequestFacts.

Context {World : Type}.
Variable axios : World -> Axios.Config -> Axios.Result * World.

Lemma request_run self this method url baseRequest token (s : Sys) :
  heap s !! self = Some this ->
  request axios self method url baseRequest token s =
    (settle (fst (axios (world s) (request_config this method url baseRequest token))),
     {| heap := heap s;
        world := snd (axios (world s) (request_config this method url baseRequest token));
        issued := issued s ++ [request_config this method url baseRequest token] |}).
Proof.
  intros Hthis. unfold request, bind, deref, await_axios, lift.
  rewrite Hthis.
  destruct (axios (world s) (request_config this method url baseRequest token)) as [r w].
  reflexivity.
Qed.

Lemma request_dangling self method url baseRequest token (s : Sys) :
  heap s !! self = None ->
  request axios self method url baseRequest token s = (Raised TypeError, s).
Proof.
  intros Hnone. unfold request, bind, deref. rewrite Hnone. reflexivity.
Qed.

End RequestFacts.

(** ** The error message of a failed request *)

Lemma string_eqb_false (a b : string) : a <> b -> String.eqb a b = false.
Proof. intros H. apply String.eqb_neq. exact H. Qed.

Lemma error_toString_no_message (name : string) :
  Axios.error_toString name EmptyString = name.
Proof.
  unfold Axios.error_toString.
  destruct (String.eqb name EmptyString) eqn:E; [| reflexivity].
  apply String.eqb_eq in E. congruence.
Qed.

Lemma compact_join_status (status : Z) (msg : string) :
  JS.compact_join " - " [JNum status; JStr msg] = status_prefixed status msg.
Proof.
  unfold JS.compact_join, JS.compact, status_prefixed. simpl.
  destruct (status =? 0); destruct (String.eqb msg EmptyString) eqn:E; simpl;
    try reflexivity.
  apply String.eqb_eq in E. subst. reflexivity.
Qed.

Lemma error_body_message_object (fields : list (string * JsVal)) :
  error_body_message (JObj fields) =
    Returned
      (let joined :=
         JS.join ": "
           (List.map JS.to_string
              (List.filter JS.truthy
                 [JS.lookup_field "message" fields; JS.lookup_field "details" fields])) in
       if String.eqb joined EmptyString then JS.stringify (JObj fields) else joined).
Proof. reflexivity. Qed.

Lemma error_body_message_sound (body : JsVal) (msg : string) :
  BodyMessage body msg -> error_body_message body = Returned msg.
Proof.
  intros H. destruct H as [text | fields joined Hj Hne | fields Hj | items | | b | n];
    try reflexivity.
  - rewrite error_body_message_object. cbv zeta. rewrite <- Hj.
    rewrite (string_eqb_false _ _ Hne). reflexivity.
  - rewrite error_body_message_object. cbv zeta. rewrite Hj. reflexivity.
Qed.

Lemma error_body_message_complete (body : JsVal) (msg : string) :
  error_body_message body = Returned msg -> BodyMessage body msg.
Proof.
  destruct body as [| | b | n | text | items | fields].
  7: {
    rewrite error_body_message_object. cbv zeta.
    destruct (String.eqb _ EmptyString) eqn:E; intros H; inversion H; subst.
    - apply message_of_object. apply String.eqb_eq in E. exact E.
    - apply message_of_fields; [reflexivity |]. apply String.eqb_neq. exact E.
  }
  all: intros H; try discriminate H; inversion H; subst; constructor.
Qed.

Lemma settle_error_iff (response : Axios.Result) (msg : string) :
  settle response = Returned (Either.error msg) <-> ErrorMessage response msg.
Proof.
  split.
  - destruct response as [status body | [name message |]]; simpl.
    + destruct (status_ok status) eqn:Hok; [discriminate |].
      destruct (error_body_message body) as [m |] eqn:Hm; simpl; [| discriminate].
      rewrite compact_join_status. intros H. inversion H; subst.
      apply failed_response; [exact Hok |].
      apply error_body_message_complete. exact Hm.
    + destruct (String.eqb message EmptyString) eqn:E; intros H; inversion H; subst.
      * apply String.eqb_eq in E. subst. rewrite error_toString_no_message.
        apply thrown_toString.
      * apply thrown_message. apply String.eqb_neq. exact E.
    + intros H. inversion H; subst. apply thrown_falsy.
  - intros H. destruct H as [name message Hne | name | | status body m Hok Hm]; simpl.
    + rewrite (string_eqb_false _ _ Hne). reflexivity.
    + rewrite error_toString_no_message. reflexivity.
    + reflexivity.
    + rewrite Hok. rewrite (error_body_message_sound _ _ Hm). simpl.
      rewrite compact_join_status. reflexivity.
Qed.

Section RequestOutcome.

Context {World : Type}.
Variable axios : World -> Axios.Config -> Axios.Result * World.

(** The request succeeds exactly on a status from 200 to 299 or 304, and
    then hands the body over as it came. *)
Lemma request_success_iff self this method url baseRequest token (s : Sys) status body w value :
  heap s !! self = Some this ->
  axios (world s) (request_config this method url baseRequest token)
    = (Axios.Response status body, w) ->
  fst (request axios self method url baseRequest token s) = Returned (Either.success value)
  <-> ((200 <= status < 300) \/ status = 304) /\ value = body.
Proof.
  intros Hthis Hresp. rewrite (request_run axios _ _ _ _ _ _ _ Hthis), Hresp. simpl.
  rewrite <- status_ok_spec.
  destruct (status_ok status).
  - split; [intros H; inversion H; auto | intros [_ ->]; reflexivity].
  - split; [| intros [H _]; discriminate].
    destruct (error_body_message body); simpl; discriminate.
Qed.

(** A call that axios rejects is an Error, never a throw. *)
Lemma request_rejected self this method url baseRequest token (s : Sys) err w :
  heap s !! self = Some this ->
  axios (world s) (request_config this method url baseRequest token)
    = (Axios.Rejected err, w) ->
  fst (request axios self method url baseRequest token s)
    = Returned (Either.error (catch_message err)).
Proof.
  intros Hthis Hresp. rewrite (request_run axios _ _ _ _ _ _ _ Hthis), Hresp. reflexivity.
Qed.

(** A response of any other status is an Error as long as its body is
    not [null]. *)
Lemma request_failure self this method url baseRequest token (s : Sys) status body w :
  heap s !! self = Some this ->
  axios (world s) (request_config this method url baseRequest token)
    = (Axios.Response status body, w) ->
  ~ ((200 <= status < 300) \/ status = 304) ->
  body <> JNull ->
  exists msg,
    fst (request axios self method url baseRequest token s) = Returned (Either.error msg).
Proof.
  intros Hthis Hresp Hstatus Hbody.
  rewrite (request_run axios _ _ _ _ _ _ _ Hthis), Hresp. simpl.
  apply status_ok_false in Hstatus. rewrite Hstatus.
  destruct body; try (eexists; reflexivity). contradiction.
Qed.

(** On the body [null] the normalization throws: [typeof null] is object,
    and the fields of [null] cannot be read. *)
Lemma request_failure_null self this method url baseRequest token (s : Sys) status w :
  heap s !! self = Some this ->
  axios (world s) (request_config this method url baseRequest token)
    = (Axios.Response status JNull, w) ->
  ~ ((200 <= status < 300) \/ status = 304) ->
  fst (request axios self method url baseRequest token s) = Raised TypeError.
Proof.
  intros Hthis Hresp Hstatus.
  rewrite (request_run axios _ _ _ _ _ _ _ Hthis), Hresp. simpl.
  apply status_ok_false in Hstatus. rewrite Hstatus. reflexivity.
Qed.

(** C7, as the code has it: a request returns the Error of a message
    exactly when axios threw an error with that message, or an error
    without message whose [toString] gives it, or a falsy value and the
    message is the fallback, or answered with a status that is no success
    and the message is the one of the body (a string trimmed; the truthy
    [message] and [details] of an object joined, or its JSON text; the
    fallback for the rest) behind the status and a dash, the status alone
    when the message is empty. *)
Theorem request_error_message self this method url baseRequest token (s : Sys) msg :
  heap s !! self = Some this ->
  fst (request axios self method url baseRequest token s) = Returned (Either.error msg)
  <-> ErrorMessage
        (fst (axios (world s) (request_config this method url baseRequest token))) msg.
Proof.
  intros Hthis. rewrite (request_run axios _ _ _ _ _ _ _ Hthis). simpl.
  apply settle_error_iff.
Qed.

End RequestOutcome.

Lemma request_error_message_witness :
  fst (request scripted 0 "GET" "/stacks" Axios.empty JUndefined
         (boot "http://h" None
            [Axios.Response 404
               (JObj [("message", JStr "Not found"); ("details", JStr "no stack")])]))
  = Returned (Either.error "404 - Not found: no stack").
Proof.
  apply (proj2 (request_error_message scripted 0
                  (constructor {| baseUrl := "http://h" |} None)
                  "GET" "/stacks" Axios.empty JUndefined
                  (boot "http://h" None
                     [Axios.Response 404
                        (JObj [("message", JStr "Not found"); ("details", JStr "no stack")])])
                  _ eq_refl)).
  simpl.
  change "404 - Not found: no stack" with (status_prefixed 404 "Not found: no stack").
  apply failed_response; [reflexivity |].
  apply message_of_fields; [reflexivity | discriminate].
Defined.

(** C7 as worded fails twice. An error thrown without a message gives what
    its [toString] gives, here its name, neither an empty message nor the
    fallback; and a failed response whose message is empty gives the status
    alone, with no separator behind it. *)
Lemma error_message_as_worded_fails :
  (fst (request scripted 0 "GET" "/stacks" Axios.empty JUndefined
          (boot "http://h" None [Axios.Rejected (Axios.ErrorObject "Error" EmptyString)]))
   = Returned (Either.error "Error")
   /\ "Error" <> spec_thrown_message (Axios.ErrorObject "Error" EmptyString)
   /\ "Error" <> EmptyString)
  /\
  (fst (request scripted 0 "GET" "/stacks" Axios.empty JUndefined
          (boot "http://h" None [Axios.Response 404 (JStr EmptyString)]))
   = Returned (Either.error "404")
   /\ "404" <> spec_status_prefixed 404 (JS.trim EmptyString)).
Proof.
  repeat split; try reflexivity; discriminate.
Qed.

(** C6, at the input where the code leaves it: the answer 404 with the body
    [null] makes [request] throw a TypeError instead of returning the Error
    variant. *)
Theorem request_null_body_throws :
  fst (request scripted 0 "GET" "/stacks" Axios.empty JUndefined
         (boot "http://h" None [Axios.Response 404 JNull]))
  = Raised TypeError.
Proof. reflexivity. Qed.

(** The status boundaries of the specification. *)
Example status_boundaries :
  status_ok 199 = false /\ status_ok 200 = true /\ status_ok 299 = true /\
  status_ok 300 = false /\ status_ok 304 = true /\ status_ok 404 = false.
Proof. repeat split. Qed.

(** ** The base URL *)

Lemma strip_trailing_slashes_spec (s : string) :
  exists n,
    s = strip_trailing_slashes s +:+ slashes n
    /\ last_char (strip_trailing_slashes s) <> Some "/"%char.
Proof.
  unfold strip_trailing_slashes.
  induction s as [| c s' IH].
  - exists O. split; [reflexivity | discriminate].
  - destruct IH as [n [Hs Hlast]]. simpl.
    destruct (JS.drop_while_end (fun c0 => Ascii.eqb c0 "/") s') as [| a r] eqn:Hr.
    + destruct (Ascii.eqb c "/") eqn:Hc.
      * apply Ascii.eqb_eq in Hc. subst c.
        exists (S n). split; [| discriminate].
        change (String "/" s' = String "/" (slashes n)).
        change (s' = slashes n) in Hs. congruence.
      * exists n. split.
        -- change (String c s' = String c (slashes n)).
           change (s' = slashes n) in Hs. congruence.
        -- simpl. intros H. inversion H; subst. rewrite Ascii.eqb_refl in Hc. discriminate.
    + exists n. split.
      * change (String c s' = String c (String a r +:+ slashes n)). congruence.
      * exact Hlast.
Qed.

Lemma string_append_assoc (a b c : string) : (a +:+ b) +:+ c = a +:+ b +:+ c.
Proof.
  induction a as [| x a IHa]; [reflexivity |].
  change (String x ((a +:+ b) +:+ c) = String x (a +:+ b +:+ c)). congruence.
Qed.

Lemma request_config_url this method url baseRequest token :
  Axios.url (request_config this method url baseRequest token) = Some (getUrl this url).
Proof. reflexivity. Qed.

Lemma set_state_frame {World : Type} (self : nat) (st : State) (s : @Sys World) :
  List.map apiUrl (heap (snd (set_state self st s))) = List.map apiUrl (heap s)
  /\ List.map options (heap (snd (set_state self st s))) = List.map options (heap s).
Proof.
  unfold set_state, bind, deref.
  destruct (heap s !! self) as [this |] eqn:Hthis; simpl; [| split; reflexivity].
  assert (Hgen : forall (l : list PortainerApi) i o,
             l !! i = Some o ->
             List.map apiUrl
               (<[i := {| options := options o; apiUrl := apiUrl o; state := st |}]> l)
             = List.map apiUrl l
             /\ List.map options
                  (<[i := {| options := options o; apiUrl := apiUrl o; state := st |}]> l)
                = List.map options l).
  { induction l as [| x l IHl]; intros [| i] o Ho; simpl in *; try discriminate.
    - inversion Ho; subst. split; reflexivity.
    - destruct (IHl i o Ho) as [H1 H2]. split; f_equal; assumption. }
  apply Hgen. exact Hthis.
Qed.

(** C9, as the code has it: the [baseUrl] a client gives back is the
    constructor input as it came, trailing slashes included; it is the API
    URL that is built from the input without its trailing slashes, followed
    by /api; every request URL is that API URL followed by the path, which
    gets a leading slash when it has none; and neither [setSession] nor
    [clearSession] changes the API URL or the options of any instance. *)
Theorem client_urls {World : Type} (opts : ConstructorOptions) (st : option State)
    (path : string) (s : @Sys World) (self : nat) (tok : string) (eid : Z) :
  let this := constructor opts st in
  let stripped := strip_trailing_slashes (baseUrl opts) in
  get_baseUrl this = baseUrl opts
  /\ (exists n, baseUrl opts = stripped +:+ slashes n)
  /\ last_char stripped <> Some "/"%char
  /\ apiUrl this = stripped +:+ "/api"
  /\ getUrl this path
     = stripped +:+ "/api" +:+ (if JS.startsWith path "/" then path else "/" +:+ path)
  /\ (forall method baseRequest token,
        Axios.url (request_config this method path baseRequest token)
        = Some (getUrl this path))
  /\ List.map apiUrl (heap (snd (setSession self tok eid s))) = List.map apiUrl (heap s)
  /\ List.map options (heap (snd (setSession self tok eid s))) = List.map options (heap s)
  /\ List.map apiUrl (heap (snd (clearSession self s))) = List.map apiUrl (heap s)
  /\ List.map options (heap (snd (clearSession self s))) = List.map options (heap s).
Proof.
  intros this stripped.
  destruct (strip_trailing_slashes_spec (baseUrl opts)) as [n [Hn Hlast]].
  split; [reflexivity |].
  split; [exists n; exact Hn |].
  split; [exact Hlast |].
  split; [reflexivity |].
  split.
  { unfold getUrl. simpl. fold stripped. apply string_append_assoc. }
  split; [intros; apply request_config_url |].
  unfold setSession, clearSession.
  destruct (set_state_frame self (logged (JNum eid) (JStr tok)) s) as [H1 H2].
  destruct (set_state_frame self not_logged s) as [H3 H4].
  auto.
Qed.

(** C9 as worded fails on an input that ends with a slash: the client
    gives the input back, not the input without its trailing slashes. *)
Lemma baseUrl_keeps_trailing_slashes :
  get_baseUrl (constructor {| baseUrl := "http://h/" |} None) = "http://h/"
  /\ strip_trailing_slashes "http://h/" = "http://h"
  /\ get_baseUrl (constructor {| baseUrl := "http://h/" |} None)
     <> strip_trailing_slashes "http://h/".
Proof. repeat split. discriminate. Qed.

(** ** The session *)

(** C8: after [setSession(t, e)] the getters give [t] and [e] back; after
    [clearSession()] both throw the error of a client that is not logged
    in. *)
Theorem session_round_trip {World : Type} (s : @Sys World) (self : nat)
    (this : PortainerApi) (t : string) (e : Z) :
  heap s !! self = Some this ->
  let s1 := snd (setSession self t e s) in
  let s2 := snd (clearSession self s1) in
  fst (setSession self t e s) = Returned tt
  /\ token self s1 = (Returned (JStr t), s1)
  /\ endpointId self s1 = (Returned (JNum e), s1)
  /\ fst (clearSession self s1) = Returned tt
  /\ token self s2 = (Raised (Error "Not logged in"), s2)
  /\ endpointId self s2 = (Raised (Error "Not logged in"), s2)
  /\ token self (snd (clearSession self s)) =
       (Raised (Error "Not logged in"), snd (clearSession self s))
  /\ endpointId self (snd (clearSession self s)) =
       (Raised (Error "Not logged in"), snd (clearSession self s)).
Proof.
  intros Hthis.
  assert (Hlt : (self < length (heap s))%nat) by (eapply lookup_lt_Some; exact Hthis).
  assert (Hset : forall st,
             set_state self st s =
               (Returned tt,
                {| heap := <[self := {| options := options this; apiUrl := apiUrl this;
                                         state := st |}]> (heap s);
                   world := world s; issued := issued s |})).
  { intros st. unfold set_state, bind, deref. rewrite Hthis. reflexivity. }
  assert (Hget : forall st,
             heap (snd (set_state self st s)) !! self
             = Some {| options := options this; apiUrl := apiUrl this; state := st |}).
  { intros st. rewrite Hset. simpl. apply list_lookup_insert_eq. exact Hlt. }
  assert (Hset1 : forall st st',
             set_state self st' (snd (set_state self st s)) =
               (Returned tt,
                {| heap := <[self := {| options := options this; apiUrl := apiUrl this;
                                         state := st' |}]> (heap (snd (set_state self st s)));
                   world := world s; issued := issued s |})).
  { intros st st'. unfold set_state at 1. unfold bind, deref. rewrite Hget.
    rewrite Hset. reflexivity. }
  assert (Hget1 : forall st st',
             heap (snd (set_state self st' (snd (set_state self st s)))) !! self
             = Some {| options := options this; apiUrl := apiUrl this; state := st' |}).
  { intros st st'. rewrite Hset1. simpl. apply list_lookup_insert_eq.
    rewrite Hset. simpl. rewrite length_insert. exact Hlt. }
  unfold setSession, clearSession. cbv zeta.
  repeat split.
  - rewrite Hset. reflexivity.
  - unfold token, bind, deref. rewrite Hget. reflexivity.
  - unfold endpointId, bind, deref. rewrite Hget. reflexivity.
  - rewrite Hset1. reflexivity.
  - unfold token, bind, deref. rewrite Hget1. reflexivity.
  - unfold endpointId, bind, deref. rewrite Hget1. reflexivity.
  - unfold token, bind, deref. rewrite Hget. reflexivity.
  - unfold endpointId, bind, deref. rewrite Hget. reflexivity.
Qed.

Lemma session_round_trip_witness :
  let s := boot "http://h" None [] in
  token 0 (snd (setSession 0 "jwt-1" 7 s))
    = (Returned (JStr "jwt-1"), snd (setSession 0 "jwt-1" 7 s))
  /\ endpointId 0 (snd (setSession 0 "jwt-1" 7 s))
    = (Returned (JNum 7), snd (setSession 0 "jwt-1" 7 s)).
Proof.
  intros s.
  destruct (session_round_trip s 0 (constructor {| baseUrl := "http://h" |} None)
              "jwt-1" 7 eq_refl) as [_ [Ht [He _]]].
  split; [exact Ht | exact He].
Defined.

(** ** Batch deletion *)

(** C10: on the empty list [deleteStacks] returns Success and issues no
    request. *)
Theorem deleteStacks_nil {World : Type}
    (axios : World -> Axios.Config -> Axios.Result * World) (self : nat) (s : Sys) :
  deleteStacks axios self [] s = (Returned (Either.success JUndefined), s)
  /\ issued (snd (deleteStacks axios self [] s)) = issued s.
Proof. split; reflexivity. Qed.

Section BatchDeletion.

Context {World : Type}.
Variable axios : World -> Axios.Config -> Axios.Result * World.

Lemma request_heap self method url baseRequest token (s : Sys) :
  heap (snd (request axios self method url baseRequest token s)) = heap s.
Proof.
  destruct (heap s !! self) as [this |] eqn:Hthis.
  - rewrite (request_run axios _ _ _ _ _ _ _ Hthis). reflexivity.
  - rewrite (request_dangling axios _ _ _ _ _ _ Hthis). reflexivity.
Qed.

Lemma request_issued self this method url baseRequest token (s : Sys) :
  heap s !! self = Some this ->
  issued (snd (request axios self method url baseRequest token s))
  = issued s ++ [request_config this method url baseRequest token].
Proof.
  intros Hthis. rewrite (request_run axios _ _ _ _ _ _ _ Hthis). reflexivity.
Qed.

Lemma deleteStacks_cons self stackId rest (s : Sys) :
  deleteStacks axios self (stackId :: rest) s =
    match request axios self "DELETE" ("/stacks/" +:+ JS.number_to_string stackId)
            Axios.empty JUndefined s with
    | (Returned (Either.success body), s1) => deleteStacks axios self rest s1
    | (failure, s1) => (failure, s1)
    end.
Proof.
  simpl. unfold bind.
  destruct (request axios self "DELETE" _ Axios.empty JUndefined s) as [[[msg | body] | e] s1];
    reflexivity.
Qed.

Lemma deleteStacks_all_deleted self this (stackIds : list Z) (s s' : Sys) :
  heap s !! self = Some this ->
  Deleted axios self stackIds s s' ->
  deleteStacks axios self stackIds s = (Returned (Either.success JUndefined), s')
  /\ heap s' = heap s
  /\ issued s' = issued s ++ List.map (delete_config this) stackIds.
Proof.
  intros Hthis Hdel. induction Hdel as [s | stackId rest s s1 s2 body Hreq Hdel IH].
  - split; [reflexivity |]. split; [reflexivity |]. simpl. rewrite app_nil_r. reflexivity.
  - pose proof (request_heap self "DELETE" ("/stacks/" +:+ JS.number_to_string stackId)
                  Axios.empty JUndefined s) as Hheap.
    pose proof (request_issued self this "DELETE"
                  ("/stacks/" +:+ JS.number_to_string stackId)
                  Axios.empty JUndefined s Hthis) as Hissued.
    fold (delete_config this stackId) in Hissued.
    rewrite Hreq in Hheap, Hissued. simpl in Hheap, Hissued.
    destruct IH as [Hrun [Hheap2 Hlog]]; [rewrite Hheap; exact Hthis |].
    rewrite deleteStacks_cons, Hreq.
    split; [exact Hrun |]. split; [congruence |].
    rewrite Hlog, Hissued. simpl. rewrite <- app_assoc. reflexivity.
Qed.

Lemma deleteStacks_first_failure self this (before : list Z) (stackId : Z)
    (after : list Z) (s s1 s2 : Sys) failure :
  heap s !! self = Some this ->
  Deleted axios self before s s1 ->
  request axios self "DELETE" ("/stacks/" +:+ JS.number_to_string stackId)
    Axios.empty JUndefined s1 = (failure, s2) ->
  (forall body, failure <> Returned (Either.success body)) ->
  deleteStacks axios self (before ++ stackId :: after) s = (failure, s2)
  /\ issued s2 = issued s ++ List.map (delete_config this) (before ++ [stackId]).
Proof.
  intros Hthis Hdel Hreq Hfail.
  induction Hdel as [s | id rest s s1 s3 body Hreq1 Hdel IH].
  - pose proof (request_issued self this "DELETE"
                  ("/stacks/" +:+ JS.number_to_string stackId)
                  Axios.empty JUndefined s Hthis) as Hissued.
    fold (delete_config this stackId) in Hissued.
    rewrite Hreq in Hissued. simpl in Hissued.
    simpl app. rewrite deleteStacks_cons, Hreq.
    split; [| exact Hissued].
    destruct failure as [[msg | body] |]; try reflexivity.
    exfalso. apply (Hfail body). reflexivity.
  - pose proof (request_heap self "DELETE" ("/stacks/" +:+ JS.number_to_string id)
                  Axios.empty JUndefined s) as Hheap.
    pose proof (request_issued self this "DELETE"
                  ("/stacks/" +:+ JS.number_to_string id)
                  Axios.empty JUndefined s Hthis) as Hissued.
    fold (delete_config this id) in Hissued.
    rewrite Hreq1 in Hheap, Hissued. simpl in Hheap, Hissued.
    destruct IH as [Hrun Hlog]; [rewrite Hheap; exact Hthis | exact Hreq |].
    simpl app. rewrite deleteStacks_cons, Hreq1.
    split; [exact Hrun |].
    rewrite Hlog, Hissued. simpl. rewrite <- app_assoc. reflexivity.
Qed.

(** Every batch is of one of the two kinds: all its stacks are deleted, or
    the stacks before some stack are and the DELETE of that one returns an
    Error or throws. *)
Lemma deleteStacks_cases self this (stackIds : list Z) (s : Sys) :
  heap s !! self = Some this ->
  (exists s', Deleted axios self stackIds s s')
  \/
  (exists before stackId after s1 s2 failure,
      stackIds = before ++ stackId :: after
      /\ Deleted axios self before s s1
      /\ request axios self "DELETE" ("/stacks/" +:+ JS.number_to_string stackId)
           Axios.empty JUndefined s1 = (failure, s2)
      /\ ((exists msg, failure = Returned (Either.error msg))
          \/ (exists e, failure = Raised e))).
Proof.
  revert s. induction stackIds as [| stackId rest IH]; intros s Hthis.
  - left. exists s. constructor.
  - pose proof (request_heap self "DELETE" ("/stacks/" +:+ JS.number_to_string stackId)
                  Axios.empty JUndefined s) as Hheap.
    destruct (request axios self "DELETE" ("/stacks/" +:+ JS.number_to_string stackId)
                Axios.empty JUndefined s) as [[[msg | body] | e] s1] eqn:Hreq;
      simpl in Hheap.
    + right. exists [], stackId, rest, s, s1, (Returned (Either.error msg)).
      split; [reflexivity |]. split; [constructor |]. split; [exact Hreq |].
      left. exists msg. reflexivity.
    + assert (Hthis1 : heap s1 !! self = Some this) by (rewrite Hheap; exact Hthis).
      destruct (IH s1 Hthis1) as
        [[s' Hdel]
        | [before [id [after [s2 [s3 [failure [Hids [Hdel [Hfail Hkind]]]]]]]]]].
      * left. exists s'. econstructor; eassumption.
      * right. exists (stackId :: before), id, after, s2, s3, failure.
        split; [rewrite Hids; reflexivity |].
        split; [econstructor; eassumption |].
        split; [exact Hfail | exact Hkind].
    + right. exists [], stackId, rest, s, s1, (Raised e).
      split; [reflexivity |]. split; [constructor |]. split; [exact Hreq |].
      right. exists e. reflexivity.
Qed.

(** X20: [deleteStacks] issues one DELETE per id, in the order given. When
    every DELETE returns Success, so does the batch, one request per id
    having been issued. When the ids before some id were deleted and the
    DELETE of that id does not return Success, the batch ends there with
    the outcome of that DELETE, the Error it returned or the exception it
    threw, and the requests issued are those of the ids before and of that
    id: none for an id behind it. Every batch is of one of these two
    kinds. *)
Theorem deleteStacks_stops_at_first_failure self this (stackIds : list Z) (s : Sys) :
  heap s !! self = Some this ->
  (forall s',
      Deleted axios self stackIds s s' ->
      deleteStacks axios self stackIds s = (Returned (Either.success JUndefined), s')
      /\ issued s' = issued s ++ List.map (delete_config this) stackIds)
  /\
  (forall before stackId after s1 s2 failure,
      stackIds = before ++ stackId :: after ->
      Deleted axios self before s s1 ->
      request axios self "DELETE" ("/stacks/" +:+ JS.number_to_string stackId)
        Axios.empty JUndefined s1 = (failure, s2) ->
      (forall body, failure <> Returned (Either.success body)) ->
      deleteStacks axios self stackIds s = (failure, s2)
      /\ issued s2 = issued s ++ List.map (delete_config this) (before ++ [stackId])
      /\ (length before < length stackIds)%nat)
  /\
  ((exists s', Deleted axios self stackIds s s')
   \/ (exists before stackId after s1 s2 failure,
         stackIds = before ++ stackId :: after
         /\ Deleted axios self before s s1
         /\ request axios self "DELETE" ("/stacks/" +:+ JS.number_to_string stackId)
              Axios.empty JUndefined s1 = (failure, s2)
         /\ ((exists msg, failure = Returned (Either.error msg))
             \/ (exists e, failure = Raised e)))).
Proof.
  intros Hthis. split; [| split].
  - intros s' Hdel.
    destruct (deleteStacks_all_deleted self this stackIds s s' Hthis Hdel) as [Hrun [_ Hlog]].
    split; assumption.
  - intros before stackId after s1 s2 failure Hids Hdel Hreq Hfail. subst stackIds.
    destruct (deleteStacks_first_failure self this before stackId after s s1 s2
                failure Hthis Hdel Hreq Hfail) as [Hrun Hlog].
    split; [exact Hrun |]. split; [exact Hlog |].
    rewrite length_app. simpl. lia.
  - apply (deleteStacks_cases self this stackIds s Hthis).
Qed.

End BatchDeletion.

Lemma deleteStacks_stops_at_first_failure_witness :
  let this := constructor {| baseUrl := "http://h" |} (Some (logged (JNum 1) (JStr "jwt-1"))) in
  let s := boot "http://h" (Some (logged (JNum 1) (JStr "jwt-1")))
             [Axios.Response 204 (JStr EmptyString);
              Axios.Response 500 (JStr "cannot remove");
              Axios.Response 204 (JStr EmptyString)] in
  fst (deleteStacks scripted 0 [1; 2; 3] s) = Returned (Either.error "500 - cannot remove")
  /\ issued (snd (deleteStacks scripted 0 [1; 2; 3] s))
     = [delete_config this 1; delete_config this 2].
Proof.
  intros this s.
  destruct (deleteStacks_stops_at_first_failure scripted 0 this [1; 2; 3] s eq_refl)
    as [_ [Hfail _]].
  destruct (Hfail [1] 2 [3]
              (snd (request scripted 0 "DELETE" "/stacks/1" Axios.empty JUndefined s))
              (snd (deleteStacks scripted 0 [1; 2; 3] s))
              (Returned (Either.error "500 - cannot remove")) eq_refl) as [Hrun [Hlog _]].
  - econstructor; [reflexivity | constructor].
  - reflexivity.
  - intros body. discriminate.
  - rewrite Hrun. split; [reflexivity | exact Hlog].
Defined.

(** C2, at the input where the code leaves it: of the stacks 1, 2 and 3
    the DELETE of the second is answered 404 with the body [null]. The
    batch stops there, the DELETE of the third is not issued; but the
    failure is not returned as an Error: [request] throws on that body,
    and so does [deleteStacks]. *)
Theorem deleteStacks_null_body_throws :
  let this := constructor {| baseUrl := "http://h" |} (Some (logged (JNum 1) (JStr "jwt-1"))) in
  deleteStacks scripted 0 [1; 2; 3]
    (boot "http://h" (Some (logged (JNum 1) (JStr "jwt-1")))
       [Axios.Response 204 (JStr EmptyString);
        Axios.Response 404 JNull;
        Axios.Response 204 (JStr EmptyString)])
  = (Raised TypeError,
     {| heap := [this];
        world := [Axios.Response 204 (JStr EmptyString)];
        issued := [delete_config this 1; delete_config this 2] |}).
Proof. reflexivity. Qed.

(** The batch of the specification: of the stacks 1, 2 and 3 the second
    cannot be deleted. The batch returns its Error; the first stack is gone
    from the remote, the third is still there, and no DELETE was issued
    for it. *)
Example deleteStacks_second_fails :
  let s := {| heap := [constructor {| baseUrl := "http://h" |}
                         (Some (logged (JNum 1) (JStr "jwt-1")))];
              world := {| remote_stacks := [1; 2; 3; 4]; remote_locked := [2] |};
              issued := [] |} in
  let run := deleteStacks (stack_server "http://h/api") 0 [1; 2; 3] s in
  fst run = Returned (Either.error "500 - stack is locked")
  /\ remote_stacks (world (snd run)) = [2; 3; 4]
  /\ List.map Axios.url (issued (snd run))
     = [Some "http://h/api/stacks/1"; Some "http://h/api/stacks/2"].
Proof. repeat split. Qed.

(** ** Listing the stacks of the endpoint *)

Lemma filter_items_on_endpoint (endpointId : JsVal) (stacks : list JsVal) :
  Forall (fun stack => stack <> JNull /\ stack <> JUndefined) stacks ->
  filter_items
    (fun stack =>
       obind (JS.member stack "EndpointId") (fun id =>
         Returned (JS.strict_eq id endpointId)))
    stacks
  = Returned (List.filter (on_endpoint endpointId) stacks).
Proof.
  induction 1 as [| stack rest [Hnull Hundef] _ IH]; [reflexivity |].
  simpl. rewrite IH. unfold on_endpoint.
  destruct stack; try contradiction; simpl;
    match goal with |- context [if ?b then _ else _] => destruct b end; reflexivity.
Qed.

Lemma filter_sublist {A : Type} (keep : A -> bool) (l : list A) :
  sublist (List.filter keep l) l.
Proof.
  induction l as [| x l IH]; simpl.
  - constructor.
  - destruct (keep x); [apply sublist_skip | apply sublist_cons]; exact IH.
Qed.

Lemma on_endpoint_true (endpointId stack : JsVal) :
  on_endpoint endpointId stack = true ->
  JS.member stack "EndpointId" = Returned endpointId.
Proof.
  unfold on_endpoint. destruct (JS.member stack "EndpointId") as [id | e]; [| discriminate].
  intros H. apply strict_eq_true in H. congruence.
Qed.

Section Listing.

Context {World : Type}.
Variable axios : World -> Axios.Config -> Axios.Result * World.

(** C1: when the client is logged and the remote lists stacks, [getStacks]
    returns the Success of the stacks of the list whose [EndpointId] is
    strictly equal to the one of the session, in the order of the list:
    a sublist of it, every element of which carries the endpoint of the
    session, and which misses no stack that carries it. *)
Theorem getStacks_filters_by_endpoint self this (endpoint tok : JsVal)
    (s : Sys) (status : Z) (stacks : list JsVal) (w : World) :
  heap s !! self = Some this ->
  state this = logged endpoint tok ->
  JS.primitive endpoint = true ->
  axios (world s) (request_config this "GET" "/stacks" Axios.empty JUndefined)
    = (Axios.Response status (JArr stacks), w) ->
  (200 <= status < 300) \/ status = 304 ->
  Forall (fun stack => stack <> JNull /\ stack <> JUndefined) stacks ->
  exists kept,
    getStacks axios self s
    = (Returned (Either.success (JArr kept)),
       {| heap := heap s; world := w;
          issued := issued s
                    ++ [request_config this "GET" "/stacks" Axios.empty JUndefined] |})
    /\ kept = List.filter (on_endpoint endpoint) stacks
    /\ sublist kept stacks
    /\ (forall stack,
          In stack kept <->
          In stack stacks /\ JS.member stack "EndpointId" = Returned endpoint).
Proof.
  intros Hthis Hstate Hprim Hresp Hstatus Hstacks.
  exists (List.filter (on_endpoint endpoint) stacks).
  split; [| split; [reflexivity | split; [apply filter_sublist |]]].
  - unfold getStacks, bind.
    rewrite (request_run axios _ _ _ _ _ _ _ Hthis), Hresp. simpl.
    apply status_ok_spec in Hstatus. rewrite Hstatus.
    unfold endpointId, bind, deref. simpl. rewrite Hthis.
    unfold lift, get_endpointId, getLoggedInData. rewrite Hstate. simpl.
    unfold bind, lift, js_filter.
    rewrite (filter_items_on_endpoint endpoint stacks Hstacks). reflexivity.
  - intros stack. rewrite filter_In. split.
    + intros [Hin Hon]. split; [exact Hin | apply on_endpoint_true; exact Hon].
    + intros [Hin Hid]. split; [exact Hin |].
      unfold on_endpoint. rewrite Hid. apply strict_eq_refl. exact Hprim.
Qed.

End Listing.

Lemma getStacks_filters_by_endpoint_witness :
  exists kept,
    fst (getStacks scripted 0
           (boot "http://h" (Some (logged (JNum 2) (JStr "jwt-1")))
              [Axios.Response 200
                 (JArr [JObj [("Id", JNum 10); ("EndpointId", JNum 2)];
                        JObj [("Id", JNum 11); ("EndpointId", JNum 22)];
                        JObj [("Id", JNum 12); ("EndpointId", JNum 2)]])]))
    = Returned (Either.success (JArr kept))
    /\ kept = [JObj [("Id", JNum 10); ("EndpointId", JNum 2)];
               JObj [("Id", JNum 12); ("EndpointId", JNum 2)]].
Proof.
  destruct (getStacks_filters_by_endpoint scripted 0
              (constructor {| baseUrl := "http://h" |}
                 (Some (logged (JNum 2) (JStr "jwt-1"))))
              (JNum 2) (JStr "jwt-1")
              (boot "http://h" (Some (logged (JNum 2) (JStr "jwt-1")))
                 [Axios.Response 200
                    (JArr [JObj [("Id", JNum 10); ("EndpointId", JNum 2)];
                           JObj [("Id", JNum 11); ("EndpointId", JNum 22)];
                           JObj [("Id", JNum 12); ("EndpointId", JNum 2)]])])
              200
              [JObj [("Id", JNum 10); ("EndpointId", JNum 2)];
               JObj [("Id", JNum 11); ("EndpointId", JNum 22)];
               JObj [("Id", JNum 12); ("EndpointId", JNum 2)]]
              []
              eq_refl eq_refl eq_refl eq_refl)
    as [kept [Hrun [Hkept _]]].
  - left. lia.
  - repeat constructor; discriminate.
  - exists kept. split; [rewrite Hrun; reflexivity | exact Hkept].
Defined.

(** ** The login handshake *)

Lemma find_items_no_match (endpointName : string) (endpoints : list JsVal) :
  Forall (fun endpoint =>
            exists name, JS.member endpoint "Name" = Returned name
                         /\ name <> JStr endpointName) endpoints ->
  find_items
    (fun endpoint =>
       obind (JS.member endpoint "Name") (fun name =>
         Returned (JS.strict_eq name (JStr endpointName))))
    endpoints
  = Returned JUndefined.
Proof.
  induction 1 as [| endpoint rest [name [Hname Hne]] _ IH]; [reflexivity |].
  simpl. rewrite Hname. simpl. rewrite (strict_eq_str_false _ _ Hne). exact IH.
Qed.

Lemma find_items_first_match (endpointName : string) (before after : list JsVal)
    (endpoint : JsVal) :
  Forall (fun endpoint =>
            exists name, JS.member endpoint "Name" = Returned name
                         /\ name <> JStr endpointName) before ->
  JS.member endpoint "Name" = Returned (JStr endpointName) ->
  find_items
    (fun endpoint =>
       obind (JS.member endpoint "Name") (fun name =>
         Returned (JS.strict_eq name (JStr endpointName))))
    (before ++ endpoint :: after)
  = Returned endpoint.
Proof.
  intros Hbefore Hmatch.
  induction Hbefore as [| x rest [name [Hname Hne]] _ IH]; simpl.
  - rewrite Hmatch. simpl. rewrite String.eqb_refl. reflexivity.
  - rewrite Hname. simpl. rewrite (strict_eq_str_false _ _ Hne). exact IH.
Qed.

Lemma member_name_truthy (endpoint : JsVal) (endpointName : string) :
  JS.member endpoint "Name" = Returned (JStr endpointName) -> JS.truthy endpoint = true.
Proof. destruct endpoint; simpl; try discriminate; reflexivity. Qed.

Lemma login_resolve_frame {World : Type} self endpointName token endpoints (s : @Sys World) :
  world (snd (login_resolve self endpointName token endpoints s)) = world s
  /\ issued (snd (login_resolve self endpointName token endpoints s)) = issued s.
Proof.
  unfold login_resolve, bind, lift.
  destruct (js_find _ endpoints) as [endpoint | e]; [| split; reflexivity].
  destruct (JS.truthy endpoint); [| split; reflexivity].
  destruct (JS.member endpoint "Id") as [id | e]; [| split; reflexivity].
  unfold deref. destruct (heap s !! self); split; reflexivity.
Qed.

Lemma login_resolve_unknown {World : Type} self endpointName token endpoints
    (s : @Sys World) :
  Forall (fun endpoint =>
            exists name, JS.member endpoint "Name" = Returned name
                         /\ name <> JStr endpointName) endpoints ->
  login_resolve self endpointName token (JArr endpoints) s
  = (Returned (Either.error ("Cannot find endpoint '" +:+ endpointName +:+ "'")), s).
Proof.
  intros Hnone. unfold login_resolve, bind, lift, js_find.
  rewrite (find_items_no_match _ _ Hnone). reflexivity.
Qed.

Lemma login_resolve_found {World : Type} self this endpointName token
    before endpoint after id (s : @Sys World) :
  heap s !! self = Some this ->
  Forall (fun endpoint =>
            exists name, JS.member endpoint "Name" = Returned name
                         /\ name <> JStr endpointName) before ->
  JS.member endpoint "Name" = Returned (JStr endpointName) ->
  JS.member endpoint "Id" = Returned id ->
  login_resolve self endpointName token (JArr (before ++ endpoint :: after)) s
  = (Returned (Either.success (length (heap s))),
     {| heap := heap s ++ [constructor (options this) (Some (logged id token))];
        world := world s;
        issued := issued s |}).
Proof.
  intros Hthis Hbefore Hname Hid. unfold login_resolve, bind, lift, js_find.
  rewrite (find_items_first_match _ _ _ _ Hbefore Hname).
  rewrite (member_name_truthy _ _ Hname), Hid.
  unfold deref. rewrite Hthis. reflexivity.
Qed.

Section Login.

Context {World : Type}.
Variable axios : World -> Axios.Config -> Axios.Result * World.

Lemma login_unfold self this username password endpointName (s : Sys) :
  heap s !! self = Some this ->
  login axios self username password endpointName s =
    let r1 := axios (world s) (auth_config this username password) in
    let s1 := {| heap := heap s; world := snd r1;
                 issued := issued s ++ [auth_config this username password] |} in
    match settle (fst r1) with
    | Raised e => (Raised e, s1)
    | Returned (Either.error msg) => (Returned (Either.error msg), s1)
    | Returned (Either.success body) =>
        match JS.member body "jwt" with
        | Raised e => (Raised e, s1)
        | Returned token =>
            let r2 := axios (snd r1) (endpoints_config this token) in
            let s2 := {| heap := heap s; world := snd r2;
                         issued := (issued s ++ [auth_config this username password])
                                   ++ [endpoints_config this token] |} in
            match settle (fst r2) with
            | Raised e => (Raised e, s2)
            | Returned (Either.error msg) => (Returned (Either.error msg), s2)
            | Returned (Either.success endpoints) =>
                login_resolve self endpointName token endpoints s2
            end
        end
    end.
Proof.
  intros Hthis. unfold login. unfold bind at 1.
  rewrite (request_run axios _ _ _ _ _ _ _ Hthis).
  fold (auth_config this username password). cbv zeta.
  destruct (settle (fst (axios (world s) (auth_config this username password))))
    as [[msg | body] | e]; try reflexivity.
  unfold Either.match_, bind at 1, lift.
  destruct (JS.member body "jwt") as [token | e]; [| reflexivity].
  unfold bind at 1.
  rewrite (request_run axios self this); [| exact Hthis].
  fold (endpoints_config this token). simpl.
  destruct (settle (fst (axios _ (endpoints_config this token))))
    as [[msg | endpoints] | e]; reflexivity.
Qed.

Lemma endpoints_config_bearer this (token : JsVal) :
  JS.truthy token = true ->
  Axios.headers (endpoints_config this token)
  = Some [("Authorization", "Bearer " +:+ JS.to_string token)].
Proof.
  intros Htoken. unfold endpoints_config, request_config, JS.or. rewrite Htoken.
  simpl. rewrite Htoken. reflexivity.
Qed.

Lemma endpoints_config_fallback this (token : JsVal) :
  JS.truthy token = false ->
  Axios.headers (endpoints_config this token)
  = Some (match state this with
          | logged _ t =>
              if JS.truthy t then [("Authorization", "Bearer " +:+ JS.to_string t)] else []
          | not_logged => []
          end).
Proof.
  intros Htoken. unfold endpoints_config, request_config, JS.or. rewrite Htoken.
  simpl. destruct (state this) as [| eid t]; reflexivity.
Qed.

(** C3, as the code has it: the first request of [login] is the POST to
    /auth; when it returns an Error, [login] returns that Error and nothing
    else is issued. The only request that can follow is the GET of
    /endpoints, after a successful answer to the POST from whose body the
    token was read; it carries that token as bearer when the token is
    truthy (a string that is not empty); with a falsy token [request] falls
    back on the token of the session, and sends no Authorization header
    when there is none. *)
Theorem login_requests self this username password endpointName (s : Sys) :
  heap s !! self = Some this ->
  let auth := auth_config this username password in
  let run := login axios self username password endpointName s in
  (Axios.method auth = Some "POST" /\ Axios.url auth = Some (getUrl this "/auth"))
  /\ (forall token,
        Axios.method (endpoints_config this token) = Some "GET"
        /\ Axios.url (endpoints_config this token) = Some (getUrl this "/endpoints"))
  /\ (forall msg,
        settle (fst (axios (world s) auth)) = Returned (Either.error msg) ->
        fst run = Returned (Either.error msg) /\ issued (snd run) = issued s ++ [auth])
  /\ (issued (snd run) = issued s ++ [auth]
      \/ exists status body token,
           fst (axios (world s) auth) = Axios.Response status body
           /\ status_ok status = true
           /\ JS.member body "jwt" = Returned token
           /\ issued (snd run) = issued s ++ [auth; endpoints_config this token])
  /\ (forall token,
        JS.truthy token = true ->
        Axios.headers (endpoints_config this token)
        = Some [("Authorization", "Bearer " +:+ JS.to_string token)])
  /\ (forall token,
        JS.truthy token = false ->
        Axios.headers (endpoints_config this token)
        = Some (match state this with
                | logged _ t =>
                    if JS.truthy t
                    then [("Authorization", "Bearer " +:+ JS.to_string t)]
                    else []
                | not_logged => []
                end)).
Proof.
  intros Hthis auth run.
  split; [split; reflexivity |].
  split; [intros token; split; reflexivity |].
  split; [| split; [| split; [apply endpoints_config_bearer | apply endpoints_config_fallback]]].
  - intros msg Hfail. subst run. rewrite (login_unfold self this _ _ _ s Hthis).
    cbv zeta. fold auth. rewrite Hfail. split; reflexivity.
  - subst run. rewrite (login_unfold self this _ _ _ s Hthis). cbv zeta. fold auth.
    destruct (axios (world s) auth) as [r1 w1] eqn:Hr1. simpl fst; simpl snd.
    destruct r1 as [status body | err]; simpl settle; [| left; reflexivity].
    destruct (status_ok status) eqn:Hok.
    + destruct (JS.member body "jwt") as [token | e] eqn:Htoken; [| left; reflexivity].
      right. exists status, body, token.
      split; [reflexivity |]. split; [exact Hok |]. split; [exact Htoken |].
      destruct (settle (fst (axios w1 (endpoints_config this token))))
        as [[msg | endpoints] | e]; simpl; try (rewrite <- app_assoc; reflexivity).
      destruct (login_resolve_frame self endpointName token endpoints
                  {| heap := heap s; world := snd (axios w1 (endpoints_config this token));
                     issued := (issued s ++ [auth]) ++ [endpoints_config this token] |})
        as [_ Hissued].
      rewrite Hissued. simpl. rewrite <- app_assoc. reflexivity.
    + left. destruct (error_body_message body); reflexivity.
Qed.

(** C4: when both calls of [login] succeed and no endpoint of the list
    bears the name asked for, [login] returns the Error that names it, and
    builds no client. *)
Theorem login_unknown_endpoint self this username password endpointName (s : Sys)
    status1 body token w1 status2 endpoints w2 :
  heap s !! self = Some this ->
  axios (world s) (auth_config this username password) = (Axios.Response status1 body, w1) ->
  status_ok status1 = true ->
  JS.member body "jwt" = Returned token ->
  axios w1 (endpoints_config this token) = (Axios.Response status2 (JArr endpoints), w2) ->
  status_ok status2 = true ->
  Forall (fun endpoint =>
            exists name, JS.member endpoint "Name" = Returned name
                         /\ name <> JStr endpointName) endpoints ->
  login axios self username password endpointName s
  = (Returned (Either.error ("Cannot find endpoint '" +:+ endpointName +:+ "'")),
     {| heap := heap s; world := w2;
        issued := issued s ++ [auth_config this username password;
                               endpoints_config this token] |}).
Proof.
  intros Hthis Hauth Hok1 Htoken Hlist Hok2 Hnone.
  rewrite (login_unfold self this _ _ _ s Hthis). cbv zeta.
  rewrite Hauth. simpl fst; simpl snd. simpl settle. rewrite Hok1, Htoken.
  rewrite Hlist. simpl fst; simpl snd. simpl settle. rewrite Hok2.
  rewrite (login_resolve_unknown _ _ _ _ _ Hnone).
  rewrite <- app_assoc. reflexivity.
Qed.

(** C5: when both calls of [login] succeed and the list has an endpoint of
    the name asked for, [login] returns the Success of a new instance,
    whose state is logged with the token issued and the [Id] of the first
    such endpoint, and whose options are those of the instance [login] was
    called on; that instance, like every other, is as it was. *)
Theorem login_builds_new_client self this username password endpointName (s : Sys)
    status1 body token w1 status2 before endpoint after id w2 :
  heap s !! self = Some this ->
  axios (world s) (auth_config this username password) = (Axios.Response status1 body, w1) ->
  status_ok status1 = true ->
  JS.member body "jwt" = Returned token ->
  axios w1 (endpoints_config this token)
    = (Axios.Response status2 (JArr (before ++ endpoint :: after)), w2) ->
  status_ok status2 = true ->
  Forall (fun endpoint =>
            exists name, JS.member endpoint "Name" = Returned name
                         /\ name <> JStr endpointName) before ->
  JS.member endpoint "Name" = Returned (JStr endpointName) ->
  JS.member endpoint "Id" = Returned id ->
  let run := login axios self username password endpointName s in
  let newApi := length (heap s) in
  fst run = Returned (Either.success newApi)
  /\ newApi <> self
  /\ (exists new,
        heap (snd run) !! newApi = Some new
        /\ state new = logged id token
        /\ options new = options this
        /\ apiUrl new = strip_trailing_slashes (baseUrl (options this)) +:+ "/api")
  /\ heap (snd run) !! self = Some this
  /\ (forall other, (other < length (heap s))%nat -> heap (snd run) !! other = heap s !! other).
Proof.
  intros Hthis Hauth Hok1 Htoken Hlist Hok2 Hbefore Hname Hid run newApi.
  assert (Hrun : run =
            (Returned (Either.success newApi),
             {| heap := heap s ++ [constructor (options this) (Some (logged id token))];
                world := w2;
                issued := (issued s ++ [auth_config this username password])
                          ++ [endpoints_config this token] |})).
  { subst run. rewrite (login_unfold self this _ _ _ s Hthis). cbv zeta.
    rewrite Hauth. simpl fst; simpl snd. simpl settle. rewrite Hok1, Htoken.
    rewrite Hlist. simpl fst; simpl snd. simpl settle. rewrite Hok2.
    rewrite (login_resolve_found self this endpointName token before endpoint after id);
      try assumption.
    reflexivity. }
  rewrite Hrun. simpl fst; simpl snd. cbn [heap].
  assert (Hlt : (self < length (heap s))%nat) by (eapply lookup_lt_Some; exact Hthis).
  split; [reflexivity |].
  split; [subst newApi; lia |].
  split.
  { exists (constructor (options this) (Some (logged id token))).
    split; [| repeat split].
    subst newApi. rewrite lookup_app_r by lia. rewrite Nat.sub_diag. reflexivity. }
  split.
  { rewrite lookup_app_l by exact Hlt. exact Hthis. }
  intros other Hother. rewrite lookup_app_l by exact Hother. reflexivity.
Qed.

End Login.

Lemma login_requests_witness :
  let s := boot "http://h" None
             [Axios.Response 422
                (JObj [("message", JStr "Invalid credentials"); ("details", JStr EmptyString)])] in
  let this := constructor {| baseUrl := "http://h" |} None in
  fst (login scripted 0 "admin" "wrong" "local" s)
    = Returned (Either.error "422 - Invalid credentials")
  /\ issued (snd (login scripted 0 "admin" "wrong" "local" s))
     = issued s ++ [auth_config this "admin" "wrong"].
Proof.
  intros s this.
  destruct (login_requests scripted 0 this "admin" "wrong" "local" s eq_refl)
    as [_ [_ [Hfail _]]].
  apply Hfail. reflexivity.
Defined.

(** C3 as worded fails when the token read from the answer of /auth is the
    empty string: the GET of /endpoints is issued, and carries no bearer
    token at all. *)
Lemma login_empty_token_sends_no_bearer :
  let s := boot "http://h" None
             [Axios.Response 200 (JObj [("jwt", JStr EmptyString)]);
              Axios.Response 200 (JArr [])] in
  let sent := issued (snd (login scripted 0 "admin" "secret" "local" s)) in
  sent = [auth_config (constructor {| baseUrl := "http://h" |} None) "admin" "secret";
          {| Axios.method := Some "GET";
             Axios.url := Some "http://h/api/endpoints";
             Axios.headers := Some [];
             Axios.data := None;
             Axios.params := None |}]
  /\ ~ (forall config,
          In config sent ->
          Axios.url config = Some "http://h/api/endpoints" ->
          Axios.headers config
          = Some [("Authorization", "Bearer " +:+ JS.to_string (JStr EmptyString))]).
Proof.
  intros s sent. split; [reflexivity |].
  intros H.
  specialize (H {| Axios.method := Some "GET";
                   Axios.url := Some "http://h/api/endpoints";
                   Axios.headers := Some [];
                   Axios.data := None;
                   Axios.params := None |}).
  assert (Hsent : Axios.headers
                    {| Axios.method := Some "GET";
                       Axios.url := Some "http://h/api/endpoints";
                       Axios.headers := Some [];
                       Axios.data := None;
                       Axios.params := None |}
                  = Some [("Authorization", "Bearer " +:+ JS.to_string (JStr EmptyString))]).
  { apply H; [right; left; reflexivity | reflexivity]. }
  discriminate Hsent.
Qed.

Lemma login_unknown_endpoint_witness :
  fst (login scripted 0 "admin" "secret" "local"
         (boot "http://h" None
            [Axios.Response 200 (JObj [("jwt", JStr "jwt-1")]);
             Axios.Response 200 (JArr [JObj [("Id", JNum 1); ("Name", JStr "primary")]])]))
  = Returned (Either.error "Cannot find endpoint 'local'").
Proof.
  rewrite (login_unknown_endpoint scripted 0
             (constructor {| baseUrl := "http://h" |} None)
             "admin" "secret" "local"
             (boot "http://h" None
                [Axios.Response 200 (JObj [("jwt", JStr "jwt-1")]);
                 Axios.Response 200 (JArr [JObj [("Id", JNum 1); ("Name", JStr "primary")]])])
             200 (JObj [("jwt", JStr "jwt-1")]) (JStr "jwt-1")
             [Axios.Response 200 (JArr [JObj [("Id", JNum 1); ("Name", JStr "primary")]])]
             200 [JObj [("Id", JNum 1); ("Name", JStr "primary")]] []
             eq_refl eq_refl eq_refl eq_refl eq_refl eq_refl).
  - reflexivity.
  - constructor; [| constructor].
    exists (JStr "primary"). split; [reflexivity | discriminate].
Defined.

Lemma login_builds_new_client_witness :
  let s := boot "http://h/" None
             [Axios.Response 200 (JObj [("jwt", JStr "jwt-1")]);
              Axios.Response 200
                (JArr [JObj [("Id", JNum 1); ("Name", JStr "primary")];
                       JObj [("Id", JNum 7); ("Name", JStr "local")]])] in
  let run := login scripted 0 "admin" "secret" "local" s in
  fst run = Returned (Either.success 1%nat)
  /\ (exists new,
        heap (snd run) !! 1%nat = Some new
        /\ state new = logged (JNum 7) (JStr "jwt-1")
        /\ options new = {| baseUrl := "http://h/" |})
  /\ heap (snd run) !! 0%nat = Some (constructor {| baseUrl := "http://h/" |} None).
Proof.
  intros s run.
  destruct (login_builds_new_client scripted 0
              (constructor {| baseUrl := "http://h/" |} None)
              "admin" "secret" "local" s
              200 (JObj [("jwt", JStr "jwt-1")]) (JStr "jwt-1")
              [Axios.Response 200
                 (JArr [JObj [("Id", JNum 1); ("Name", JStr "primary")];
                        JObj [("Id", JNum 7); ("Name", JStr "local")]])]
              200
              [JObj [("Id", JNum 1); ("Name", JStr "primary")]]
              (JObj [("Id", JNum 7); ("Name", JStr "local")])
              []
              (JNum 7)
              []
              eq_refl eq_refl eq_refl eq_refl eq_refl eq_refl)
    as [Hres [_ [[new [Hnew [Hstate [Hopts _]]]] [Hold _]]]].
  - constructor; [| constructor].
    exists (JStr "primary"). split; [reflexivity | discriminate].
  - reflexivity.
  - reflexivity.
  - split; [exact Hres |]. split; [| exact Hold].
    exists new. split; [exact Hnew |]. split; [exact Hstate | exact Hopts].
Defined.

(** * Further properties of the client *)

(** ** What [request] hands to axios *)

(** X1: in the configuration of a request the method and the URL are those
    of the arguments, whatever the base request says; its data and its
    parameters are those of the base request; headers of the base request
    replace the Authorization header, and without them the header carries
    the token given when it is truthy, else the token of the session when
    the client is logged with a truthy one, else nothing. *)
Theorem request_config_resolution this (method url : string)
    (baseRequest : Axios.Config) (token : JsVal) :
  let config := request_config this method url baseRequest token in
  Axios.method config = Some method
  /\ Axios.url config = Some (getUrl this url)
  /\ Axios.data config = Axios.data baseRequest
  /\ Axios.params config = Axios.params baseRequest
  /\ Axios.headers config =
       match Axios.headers baseRequest with
       | Some given => Some given
       | None =>
           Some (if JS.truthy token
                 then [("Authorization", "Bearer " +:+ JS.to_string token)]
                 else match state this with
                      | logged _ session =>
                          if JS.truthy session
                          then [("Authorization", "Bearer " +:+ JS.to_string session)]
                          else []
                      | not_logged => []
                      end)
       end.
Proof.
  intros config. subst config. unfold request_config, JS.or.
  destruct baseRequest as [m u h d p]. simpl.
  split; [reflexivity |]. split; [reflexivity |].
  split; [destruct d; reflexivity |]. split; [destruct p; reflexivity |].
  destruct h as [given |]; [reflexivity |]. simpl.
  destruct (JS.truthy token) eqn:Htoken.
  - rewrite Htoken. reflexivity.
  - destruct (state this) as [| eid session]; reflexivity.
Qed.

(** ** URLs *)

Lemma strip_slashes_only (n : nat) : strip_trailing_slashes (slashes n) = EmptyString.
Proof.
  unfold strip_trailing_slashes. induction n as [| n IH]; [reflexivity |].
  simpl. rewrite IH. reflexivity.
Qed.

Lemma strip_ignores_trailing_slashes (s : string) (n : nat) :
  strip_trailing_slashes (s +:+ slashes n) = strip_trailing_slashes s.
Proof.
  induction s as [| c s IH].
  - change (EmptyString +:+ slashes n) with (slashes n). apply strip_slashes_only.
  - change (String c s +:+ slashes n) with (String c (s +:+ slashes n)).
    unfold strip_trailing_slashes in *. simpl. rewrite IH. reflexivity.
Qed.

(** X2: trailing slashes of the base URL do not show in the API URL: two
    inputs that differ by trailing slashes only give clients with the same
    API URL, hence the same URL for every path; and the API URL never has a
    slash in front of its /api. *)
Theorem apiUrl_ignores_trailing_slashes (base : string) (n : nat) (st : option State)
    (path : string) :
  apiUrl (constructor {| baseUrl := base +:+ slashes n |} st)
  = apiUrl (constructor {| baseUrl := base |} st)
  /\ getUrl (constructor {| baseUrl := base +:+ slashes n |} st) path
     = getUrl (constructor {| baseUrl := base |} st) path
  /\ strip_trailing_slashes (strip_trailing_slashes base) = strip_trailing_slashes base
  /\ last_char (strip_trailing_slashes (base +:+ slashes n)) <> Some "/"%char.
Proof.
  assert (Hapi : apiUrl (constructor {| baseUrl := base +:+ slashes n |} st)
                 = apiUrl (constructor {| baseUrl := base |} st)).
  { unfold constructor. simpl. rewrite strip_ignores_trailing_slashes. reflexivity. }
  split; [exact Hapi |].
  split; [unfold getUrl; rewrite Hapi; reflexivity |].
  split.
  - destruct (strip_trailing_slashes_spec base) as [k [Hk _]].
    rewrite Hk at 2. rewrite strip_ignores_trailing_slashes. reflexivity.
  - destruct (strip_trailing_slashes_spec (base +:+ slashes n)) as [k [_ Hlast]].
    exact Hlast.
Qed.

Lemma startsWith_slash_cons (path : string) :
  JS.startsWith ("/" +:+ path) "/" = true.
Proof.
  unfold JS.startsWith.
  change (String.prefix "/" ("/" +:+ path))
    with (if ascii_dec "/" "/" then String.prefix EmptyString path else false).
  destruct (ascii_dec "/" "/") as [_ | Hne]; [destruct path; reflexivity |].
  exfalso. apply Hne. reflexivity.
Qed.

Lemma startsWith_slash_inv (path : string) :
  JS.startsWith path "/" = true -> exists rest, path = "/" +:+ rest.
Proof.
  unfold JS.startsWith. destruct path as [| c rest]; [discriminate |].
  change (String.prefix "/" (String c rest))
    with (if ascii_dec "/" c then String.prefix EmptyString rest else false).
  destruct (ascii_dec "/" c) as [<- | Hne].
  - intros _. exists rest. reflexivity.
  - discriminate.
Qed.

(** X3: every URL that [getUrl] builds lies under the API URL: it is the
    API URL, a slash and a rest. A path is taken as it is when it begins
    with a slash and gets one otherwise, so that a path with its leading
    slash and the same path without it give the same URL, and a path that
    is itself an absolute URL is still appended to the API URL. *)
Theorem getUrl_under_apiUrl this (path : string) :
  (exists rest, getUrl this path = (apiUrl this +:+ "/") +:+ rest)
  /\ getUrl this (if JS.startsWith path "/" then path else "/" +:+ path) = getUrl this path.
Proof.
  split.
  - unfold getUrl. destruct (JS.startsWith path "/") eqn:Hslash.
    + destruct (startsWith_slash_inv path Hslash) as [rest ->].
      exists rest. rewrite string_append_assoc. reflexivity.
    + exists path. rewrite string_append_assoc. reflexivity.
  - destruct (JS.startsWith path "/") eqn:Hslash; [reflexivity |].
    unfold getUrl. rewrite startsWith_slash_cons, Hslash. reflexivity.
Qed.

(** ** The session and the operations *)

Lemma endpointId_run {World : Type} (self : nat) (s : @Sys World) :
  snd (endpointId self s) = s.
Proof.
  unfold endpointId, bind, deref, lift. destruct (heap s !! self); reflexivity.
Qed.

Lemma endpointId_not_logged {World : Type} (self : nat) this (s : @Sys World) :
  heap s !! self = Some this ->
  state this = not_logged ->
  endpointId self s = (Raised (Error "Not logged in"), s).
Proof.
  intros Hthis Hstate. unfold endpointId, bind, deref, lift. rewrite Hthis.
  unfold get_endpointId, getLoggedInData. rewrite Hstate. reflexivity.
Qed.

Lemma endpointId_logged {World : Type} (self : nat) this eid tok (s : @Sys World) :
  heap s !! self = Some this ->
  state this = logged eid tok ->
  endpointId self s = (Returned eid, s).
Proof.
  intros Hthis Hstate. unfold endpointId, bind, deref, lift. rewrite Hthis.
  unfold get_endpointId, getLoggedInData. rewrite Hstate. reflexivity.
Qed.

Lemma set_state_run {World : Type} (self : nat) this (st : State) (s : @Sys World) :
  heap s !! self = Some this ->
  set_state self st s =
    (Returned tt,
     {| heap := <[self := {| options := options this; apiUrl := apiUrl this; state := st |}]>
                  (heap s);
        world := world s; issued := issued s |}).
Proof.
  intros Hthis. unfold set_state, bind, deref. rewrite Hthis. reflexivity.
Qed.

Lemma set_state_dangling {World : Type} (self : nat) (st : State) (s : @Sys World) :
  heap s !! self = None -> set_state self st s = (Raised TypeError, s).
Proof.
  intros Hnone. unfold set_state, bind, deref. rewrite Hnone. reflexivity.
Qed.

Lemma set_state_lookup {World : Type} (self : nat) this (st : State) (s : @Sys World) :
  heap s !! self = Some this ->
  heap (snd (set_state self st s)) !! self
  = Some {| options := options this; apiUrl := apiUrl this; state := st |}.
Proof.
  intros Hthis. rewrite (set_state_run self this st s Hthis). simpl.
  apply list_lookup_insert_eq. eapply lookup_lt_Some. exact Hthis.
Qed.

Lemma set_state_overwrite {World : Type} (self : nat) (st1 st2 : State) (s : @Sys World) :
  snd (set_state self st2 (snd (set_state self st1 s))) = snd (set_state self st2 s).
Proof.
  destruct (heap s !! self) as [this |] eqn:Hthis.
  - pose proof (set_state_lookup self this st1 s Hthis) as Hafter.
    rewrite (set_state_run self _ st2 _ Hafter).
    rewrite (set_state_run self this st1 s Hthis).
    rewrite (set_state_run self this st2 s Hthis). simpl.
    rewrite list_insert_insert_eq. reflexivity.
  - rewrite (set_state_dangling self st1 s Hthis). reflexivity.
Qed.

Lemma set_state_other {World : Type} (self other : nat) (st : State) (s : @Sys World) :
  other <> self ->
  heap (snd (set_state self st s)) !! other = heap s !! other.
Proof.
  intros Hne. destruct (heap s !! self) as [this |] eqn:Hthis.
  - rewrite (set_state_run self this st s Hthis). simpl.
    apply list_lookup_insert_ne. congruence.
  - rewrite (set_state_dangling self st s Hthis). reflexivity.
Qed.

(** X4: [setSession] and [clearSession] write the state of the instance
    they are called on and of no other, and the heap keeps its length; the
    last of two calls decides: a session set twice is the second one, a
    session set and cleared is cleared, and a session cleared and set is
    set. *)
Theorem session_writes_compose {World : Type} (s : @Sys World) (self other : nat)
    (t1 t2 : string) (e1 e2 : Z) :
  (other <> self ->
     heap (snd (setSession self t1 e1 s)) !! other = heap s !! other
     /\ heap (snd (clearSession self s)) !! other = heap s !! other)
  /\ length (heap (snd (setSession self t1 e1 s))) = length (heap s)
  /\ length (heap (snd (clearSession self s))) = length (heap s)
  /\ snd (setSession self t2 e2 (snd (setSession self t1 e1 s)))
     = snd (setSession self t2 e2 s)
  /\ snd (clearSession self (snd (setSession self t1 e1 s))) = snd (clearSession self s)
  /\ snd (setSession self t2 e2 (snd (clearSession self s)))
     = snd (setSession self t2 e2 s).
Proof.
  unfold setSession, clearSession.
  split; [intros Hne; split; apply set_state_other; exact Hne |].
  assert (Hlen : forall st, length (heap (snd (set_state self st s))) = length (heap s)).
  { intros st. destruct (heap s !! self) as [this |] eqn:Hthis.
    - rewrite (set_state_run self this st s Hthis). simpl. apply length_insert.
    - rewrite (set_state_dangling self st s Hthis). reflexivity. }
  split; [apply Hlen |]. split; [apply Hlen |].
  split; [apply set_state_overwrite |].
  split; apply set_state_overwrite.
Qed.

Lemma session_writes_compose_witness :
  let s := {| heap := [constructor {| baseUrl := "http://a" |} None;
                       constructor {| baseUrl := "http://b" |} None];
              world := @nil Axios.Result; issued := [] |} in
  heap (snd (setSession 0 "jwt-1" 7 s)) !! 1%nat
  = Some (constructor {| baseUrl := "http://b" |} None).
Proof.
  intros s.
  destruct (session_writes_compose s 0 1 "jwt-1" "jwt-2" 7 8) as [Hother _].
  destruct (Hother ltac:(discriminate)) as [Hset _].
  rewrite Hset. reflexivity.
Defined.

Section SessionAndRequests.

Context {World : Type}.
Variable axios : World -> Axios.Config -> Axios.Result * World.

(** X5: the request that follows [setSession(t, e)] with a token that is
    not empty carries that token as bearer; the request that follows
    [clearSession()] carries no Authorization header. *)
Theorem session_decides_bearer self this (t : string) (e : Z) (method url : string)
    (s : Sys) :
  heap s !! self = Some this ->
  t <> EmptyString ->
  (exists config,
      issued (snd (request axios self method url Axios.empty JUndefined
                     (snd (setSession self t e s))))
      = issued s ++ [config]
      /\ Axios.headers config = Some [("Authorization", "Bearer " +:+ t)]
      /\ Axios.url config = Some (getUrl this url))
  /\
  (exists config,
      issued (snd (request axios self method url Axios.empty JUndefined
                     (snd (clearSession self s))))
      = issued s ++ [config]
      /\ Axios.headers config = Some []
      /\ Axios.url config = Some (getUrl this url)).
Proof.
  intros Hthis Ht. unfold setSession, clearSession. split.
  - pose proof (set_state_lookup self this (logged (JNum e) (JStr t)) s Hthis) as Hafter.
    rewrite (request_run axios _ _ _ _ _ _ _ Hafter). simpl.
    rewrite (set_state_run self this _ s Hthis). simpl.
    eexists. split; [reflexivity |].
    split; [| reflexivity].
    unfold request_config, JS.or. simpl.
    rewrite (string_eqb_false _ _ Ht). reflexivity.
  - pose proof (set_state_lookup self this not_logged s Hthis) as Hafter.
    rewrite (request_run axios _ _ _ _ _ _ _ Hafter). simpl.
    rewrite (set_state_run self this _ s Hthis). simpl.
    eexists. split; [reflexivity |]. split; reflexivity.
Qed.

(** X6: the operations whose path holds the endpoint of the session read it
    before anything is sent: on a client that is not logged,
    [startContainer], [stopContainer], [createStack] and [getContainers]
    throw the error of a client that is not logged in, and issue no
    request. *)
Theorem endpoint_operations_need_session self this (s : Sys)
    (containerId : string) (newStackApi : JsVal) (all : bool) :
  heap s !! self = Some this ->
  state this = not_logged ->
  startContainer axios self containerId s = (Raised (Error "Not logged in"), s)
  /\ stopContainer axios self containerId s = (Raised (Error "Not logged in"), s)
  /\ createStack axios self newStackApi s = (Raised (Error "Not logged in"), s)
  /\ getContainers axios self all s = (Raised (Error "Not logged in"), s).
Proof.
  intros Hthis Hstate.
  unfold startContainer, stopContainer, createStack, getContainers, bind.
  rewrite (endpointId_not_logged self this s Hthis Hstate).
  repeat split.
Qed.

(** X7: [getStacks] sends its request before it reads the endpoint of the
    session: on a client that is not logged the listing is requested,
    without Authorization header, and only then the call throws the error
    of a client that is not logged in, whatever the remote answered. *)
Theorem getStacks_requests_before_session_check self this (s : Sys) :
  heap s !! self = Some this ->
  state this = not_logged ->
  let config := request_config this "GET" "/stacks" Axios.empty JUndefined in
  fst (getStacks axios self s) =
    match settle (fst (axios (world s) config)) with
    | Returned _ => Raised (Error "Not logged in")
    | Raised e => Raised e
    end
  /\ issued (snd (getStacks axios self s)) = issued s ++ [config]
  /\ world (snd (getStacks axios self s)) = snd (axios (world s) config)
  /\ Axios.headers config = Some [].
Proof.
  intros Hthis Hstate config.
  set (s1 := {| heap := heap s; world := snd (axios (world s) config);
                issued := issued s ++ [config] |}).
  assert (Hthis1 : heap s1 !! self = Some this) by exact Hthis.
  assert (Hrun : getStacks axios self s =
                   (match settle (fst (axios (world s) config)) with
                    | Returned _ => Raised (Error "Not logged in")
                    | Raised e => Raised e
                    end, s1)).
  { unfold getStacks. unfold bind at 1.
    rewrite (request_run axios _ _ _ _ _ _ _ Hthis). fold config. fold s1.
    destruct (settle (fst (axios (world s) config))) as [res | e]; [| reflexivity].
    unfold bind. rewrite (endpointId_not_logged self this s1 Hthis1 Hstate). reflexivity. }
  rewrite Hrun. simpl.
  split; [reflexivity |]. split; [reflexivity |]. split; [reflexivity |].
  unfold config, request_config, JS.or. rewrite Hstate. reflexivity.
Qed.

(** X8: the operations whose path holds no endpoint never check the
    session: on a client that is not logged, [getStack], [getTeams],
    [getUsers] and [setPermission] send their request without Authorization
    header and return what [request] makes of the answer. *)
Theorem plain_operations_skip_session_check self this (s : Sys) (id resourceId : Z)
    (permission : JsVal) :
  heap s !! self = Some this ->
  state this = not_logged ->
  let run (config : Axios.Config) :=
    (settle (fst (axios (world s) config)),
     {| heap := heap s; world := snd (axios (world s) config);
        issued := issued s ++ [config] |}) in
  (exists config,
      getStack axios self id s = run config
      /\ Axios.headers config = Some []
      /\ Axios.method config = Some "GET"
      /\ Axios.url config = Some (apiUrl this +:+ "/stacks/" +:+ JS.number_to_string id))
  /\ (exists config,
        getTeams axios self s = run config
        /\ Axios.headers config = Some []
        /\ Axios.method config = Some "GET"
        /\ Axios.url config = Some (apiUrl this +:+ "/teams"))
  /\ (exists config,
        getUsers axios self s = run config
        /\ Axios.headers config = Some []
        /\ Axios.method config = Some "GET"
        /\ Axios.url config = Some (apiUrl this +:+ "/users"))
  /\ (exists config,
        setPermission axios self resourceId permission s = run config
        /\ Axios.headers config = Some []
        /\ Axios.method config = Some "PUT"
        /\ Axios.data config = Some permission
        /\ Axios.url config
           = Some (apiUrl this +:+ "/resource_controls/" +:+ JS.number_to_string resourceId)).
Proof.
  intros Hthis Hstate run.
  unfold getStack, getTeams, getUsers, setPermission.
  repeat rewrite (request_run axios _ _ _ _ _ _ _ Hthis).
  assert (Hheaders : forall method url base,
             Axios.headers base = None ->
             Axios.headers (request_config this method url base JUndefined) = Some []).
  { intros method url [m u h d p] Hh. simpl in Hh. subst h.
    unfold request_config, JS.or. rewrite Hstate. reflexivity. }
  split; [| split; [| split]]; eexists; (split; [reflexivity |]);
    (split; [apply Hheaders; reflexivity |]); repeat split.
Qed.

End SessionAndRequests.

Lemma session_decides_bearer_witness :
  let s := boot "http://h" None [Axios.Response 200 (JArr [])] in
  exists config,
    issued (snd (request scripted 0 "GET" "/teams" Axios.empty JUndefined
                   (snd (setSession 0 "jwt-1" 7 s))))
    = issued s ++ [config]
    /\ Axios.headers config = Some [("Authorization", "Bearer jwt-1")].
Proof.
  intros s.
  destruct (session_decides_bearer scripted 0
              (constructor {| baseUrl := "http://h" |} None)
              "jwt-1" 7 "GET" "/teams" s eq_refl ltac:(discriminate))
    as [[config [Hissued [Hheaders _]]] _].
  exists config. split; [exact Hissued | exact Hheaders].
Defined.

Lemma endpoint_operations_need_session_witness :
  let s := boot "http://h" None [Axios.Response 204 (JStr EmptyString)] in
  startContainer scripted 0 "c0ffee" s = (Raised (Error "Not logged in"), s)
  /\ issued s = [].
Proof.
  intros s.
  destruct (endpoint_operations_need_session scripted 0
              (constructor {| baseUrl := "http://h" |} None) s
              "c0ffee" JNull true eq_refl eq_refl) as [Hstart _].
  split; [exact Hstart | reflexivity].
Defined.

Lemma getStacks_requests_before_session_check_witness :
  let s := boot "http://h" None [Axios.Response 200 (JArr [])] in
  fst (getStacks scripted 0 s) = Raised (Error "Not logged in")
  /\ List.map Axios.url (issued (snd (getStacks scripted 0 s)))
     = [Some "http://h/api/stacks"].
Proof.
  intros s.
  destruct (getStacks_requests_before_session_check scripted 0
              (constructor {| baseUrl := "http://h" |} None) s eq_refl eq_refl)
    as [Hres [Hissued _]].
  split; [rewrite Hres; reflexivity | rewrite Hissued; reflexivity].
Defined.

Lemma plain_operations_skip_session_check_witness :
  let s := boot "http://h" None [Axios.Response 200 (JArr [JObj [("Id", JNum 1)]])] in
  fst (getTeams scripted 0 s) = Returned (Either.success (JArr [JObj [("Id", JNum 1)]])).
Proof.
  intros s.
  destruct (plain_operations_skip_session_check scripted 0
              (constructor {| baseUrl := "http://h" |} None) s 1 1 JNull eq_refl eq_refl)
    as [_ [[config [Hrun _]] _]].
  rewrite Hrun. reflexivity.
Defined.

(** ** What the operations leave alone *)

Section Frames.

Context {World : Type}.
Variable axios : World -> Axios.Config -> Axios.Result * World.

Lemma after_endpoint_heap {A : Type} (self : nat) (k : JsVal -> @M World A) (s : Sys) :
  (forall eid s', heap (snd (k eid s')) = heap s') ->
  heap (snd (bind (endpointId self) k s)) = heap s.
Proof.
  intros Hk. unfold bind.
  pose proof (endpointId_run self s) as Hrun.
  destruct (endpointId self s) as [[eid | e] s']; simpl in Hrun; subst s'.
  - apply Hk.
  - reflexivity.
Qed.

Lemma deleteStacks_heap self (stackIds : list Z) (s : Sys) :
  heap (snd (deleteStacks axios self stackIds s)) = heap s.
Proof.
  revert s. induction stackIds as [| stackId rest IH]; intros s; [reflexivity |].
  rewrite deleteStacks_cons.
  pose proof (request_heap axios self "DELETE" ("/stacks/" +:+ JS.number_to_string stackId)
                Axios.empty JUndefined s) as Hheap.
  destruct (request axios self "DELETE" _ Axios.empty JUndefined s)
    as [[[msg | body] | e] s1]; simpl in Hheap; try exact Hheap.
  rewrite IH. exact Hheap.
Qed.

Lemma getStacks_heap self (s : Sys) :
  heap (snd (getStacks axios self s)) = heap s.
Proof.
  unfold getStacks. unfold bind at 1.
  pose proof (request_heap axios self "GET" "/stacks" Axios.empty JUndefined s) as Hheap.
  destruct (request axios self "GET" "/stacks" Axios.empty JUndefined s)
    as [[res | e] s1]; simpl in Hheap; [| exact Hheap].
  rewrite <- Hheap. apply after_endpoint_heap.
  intros eid s'. destruct res as [msg | allStacks]; [reflexivity |].
  unfold Either_map, Either.match_, bind, lift.
  destruct (js_filter _ allStacks); reflexivity.
Qed.

(** X9: no operation other than [setSession], [clearSession] and [login]
    touches the instances: whatever the remote answers, and whether the
    call returns or throws, the heap after [startContainer],
    [stopContainer], [getStack], [getStacks], [createStack],
    [deleteStacks], [setPermission], [getContainers], [getTeams] or
    [getUsers] is the heap before it; no session is changed or dropped
    behind the caller. *)
Theorem operations_keep_instances self (s : Sys) (containerId : string) (id : Z)
    (payload : JsVal) (stackIds : list Z) (all : bool) :
  heap (snd (startContainer axios self containerId s)) = heap s
  /\ heap (snd (stopContainer axios self containerId s)) = heap s
  /\ heap (snd (getStack axios self id s)) = heap s
  /\ heap (snd (getStacks axios self s)) = heap s
  /\ heap (snd (createStack axios self payload s)) = heap s
  /\ heap (snd (deleteStacks axios self stackIds s)) = heap s
  /\ heap (snd (setPermission axios self id payload s)) = heap s
  /\ heap (snd (getContainers axios self all s)) = heap s
  /\ heap (snd (getTeams axios self s)) = heap s
  /\ heap (snd (getUsers axios self s)) = heap s.
Proof.
  unfold startContainer, stopContainer, getStack, createStack, setPermission,
    getContainers, getTeams, getUsers.
  repeat split;
    try apply request_heap;
    try (apply after_endpoint_heap; intros eid s'; apply request_heap).
  - apply getStacks_heap.
  - apply deleteStacks_heap.
Qed.

(** ** Batches *)

(** X10: a batch over two lists one behind the other is the batch over
    the first followed, when that one returns Success, by the batch over
    the second from the state it left; when the first batch returns an
    Error or throws, that is the outcome and the second list is not
    touched. *)
Theorem deleteStacks_app self (first second : list Z) (s : Sys) :
  deleteStacks axios self (first ++ second) s =
    match deleteStacks axios self first s with
    | (Returned (Either.success _), s1) => deleteStacks axios self second s1
    | failed => failed
    end.
Proof.
  revert s. induction first as [| stackId rest IH]; intros s; [reflexivity |].
  change ((stackId :: rest) ++ second) with (stackId :: (rest ++ second)).
  rewrite !deleteStacks_cons.
  destruct (request axios self "DELETE" _ Axios.empty JUndefined s)
    as [[[msg | body] | e] s1]; try reflexivity.
  apply IH.
Qed.

(** X11: whatever happens, the requests of a batch are the DELETEs of the
    first ids of the list, in their order, one for each and nothing else;
    and the batch returns Success only when there is one for every id. *)
Theorem deleteStacks_issues_prefix self this (stackIds : list Z) (s : Sys) :
  heap s !! self = Some this ->
  exists n,
    (n <= length stackIds)%nat
    /\ issued (snd (deleteStacks axios self stackIds s))
       = issued s ++ List.map (delete_config this) (firstn n stackIds)
    /\ (forall value,
          fst (deleteStacks axios self stackIds s) = Returned (Either.success value) ->
          n = length stackIds /\ value = JUndefined).
Proof.
  revert s. induction stackIds as [| stackId rest IH]; intros s Hthis.
  - exists O. split; [reflexivity |]. split.
    + simpl. rewrite app_nil_r. reflexivity.
    + simpl. intros value H. inversion H. split; reflexivity.
  - rewrite deleteStacks_cons.
    pose proof (request_heap axios self "DELETE" ("/stacks/" +:+ JS.number_to_string stackId)
                  Axios.empty JUndefined s) as Hheap.
    pose proof (request_issued axios self this "DELETE"
                  ("/stacks/" +:+ JS.number_to_string stackId)
                  Axios.empty JUndefined s Hthis) as Hissued.
    fold (delete_config this stackId) in Hissued.
    destruct (request axios self "DELETE" _ Axios.empty JUndefined s)
      as [[[msg | body] | e] s1]; simpl in Hheap, Hissued.
    + exists 1%nat. split; [simpl; lia |]. split; [exact Hissued |].
      simpl. intros value H. discriminate H.
    + destruct (IH s1) as [n [Hn [Hlog Hok]]]; [rewrite Hheap; exact Hthis |].
      exists (S n). split; [simpl; lia |]. split.
      * rewrite Hlog, Hissued. simpl. rewrite <- app_assoc. reflexivity.
      * intros value H. destruct (Hok value H) as [Hlen Hval].
        split; [simpl; congruence | exact Hval].
    + exists 1%nat. split; [simpl; lia |]. split; [exact Hissued |].
      simpl. intros value H. discriminate H.
Qed.

End Frames.

Lemma deleteStacks_issues_prefix_witness :
  let this := constructor {| baseUrl := "http://h" |} (Some (logged (JNum 1) (JStr "jwt-1"))) in
  let s := boot "http://h" (Some (logged (JNum 1) (JStr "jwt-1")))
             [Axios.Response 204 (JStr EmptyString); Axios.Response 404 JNull] in
  exists n,
    (n <= 3)%nat
    /\ issued (snd (deleteStacks scripted 0 [5; 6; 7] s))
       = List.map (delete_config this) (firstn n [5; 6; 7]).
Proof.
  intros this s.
  destruct (deleteStacks_issues_prefix scripted 0 this [5; 6; 7] s eq_refl)
    as [n [Hn [Hlog _]]].
  exists n. split; [exact Hn | exact Hlog].
Defined.

(** ** Failed responses *)

Section FailedResponses.

Context {World : Type}.
Variable axios : World -> Axios.Config -> Axios.Result * World.

(** X12: the Error of a response that is no success names the status: for
    a status other than zero the message is the status code alone, or the
    status code, a dash between spaces and a text that is not empty. *)
Theorem failed_response_names_status self this method url baseRequest token (s : Sys)
    status body w msg :
  heap s !! self = Some this ->
  axios (world s) (request_config this method url baseRequest token)
    = (Axios.Response status body, w) ->
  status <> 0 ->
  fst (request axios self method url baseRequest token s) = Returned (Either.error msg) ->
  msg = JS.number_to_string status
  \/ exists text, text <> EmptyString
                  /\ msg = JS.number_to_string status +:+ " - " +:+ text.
Proof.
  intros Hthis Hresp Hstatus.
  rewrite (request_run axios _ _ _ _ _ _ _ Hthis), Hresp. simpl.
  destruct (status_ok status); [discriminate |].
  destruct (error_body_message body) as [text | e]; simpl; [| discriminate].
  rewrite compact_join_status. unfold status_prefixed.
  apply Z.eqb_neq in Hstatus. rewrite Hstatus.
  destruct (String.eqb text EmptyString) eqn:Htext; intros H; inversion H.
  - left. reflexivity.
  - right. exists text. split; [apply String.eqb_neq; exact Htext | reflexivity].
Qed.

End FailedResponses.

Lemma failed_response_names_status_witness :
  "404 - stack not found" = JS.number_to_string 404
  \/ exists text, text <> EmptyString
                  /\ "404 - stack not found" = JS.number_to_string 404 +:+ " - " +:+ text.
Proof.
  apply (failed_response_names_status scripted 0
           (constructor {| baseUrl := "http://h" |} None)
           "GET" "/stacks/9" Axios.empty JUndefined
           (boot "http://h" None [Axios.Response 404 (JStr " stack not found ")])
           404 (JStr " stack not found ") [] "404 - stack not found"
           eq_refl eq_refl).
  - discriminate.
  - reflexivity.
Defined.

(** ** More on the listing of stacks *)

Lemma filter_items_nullish (pred : JsVal -> Outcome bool) (items : list JsVal) :
  (forall x, x = JNull \/ x = JUndefined -> pred x = Raised TypeError) ->
  (forall x, pred x = Raised TypeError \/ exists keep, pred x = Returned keep) ->
  (exists x, In x items /\ (x = JNull \/ x = JUndefined)) ->
  filter_items pred items = Raised TypeError.
Proof.
  intros Hnull Hpred. induction items as [| y rest IH]; intros [x [Hin Hx]].
  - destruct Hin.
  - simpl. destruct (Hpred y) as [Hy | [keep Hy]]; rewrite Hy; [reflexivity |].
    simpl. destruct Hin as [-> | Hin].
    + rewrite (Hnull x Hx) in Hy. discriminate.
    + rewrite IH; [reflexivity |]. exists x. split; assumption.
Qed.

Section ListingEdges.

Context {World : Type}.
Variable axios : World -> Axios.Config -> Axios.Result * World.

(** X13: for a logged client [getStacks] hands an Error of the listing on
    as it is. When the listing succeeds with a body that is no array, or
    with an array that holds [null] or [undefined], the filter throws a
    TypeError: the call neither returns the body nor an Error. One request
    is issued in each case. *)
Theorem getStacks_unusable_listing self this endpoint tok (s : Sys) r w :
  heap s !! self = Some this ->
  state this = logged endpoint tok ->
  axios (world s) (request_config this "GET" "/stacks" Axios.empty JUndefined) = (r, w) ->
  let s1 := {| heap := heap s; world := w;
               issued := issued s
                         ++ [request_config this "GET" "/stacks" Axios.empty JUndefined] |} in
  (forall msg,
      settle r = Returned (Either.error msg) ->
      getStacks axios self s = (Returned (Either.error msg), s1))
  /\ (forall body,
        settle r = Returned (Either.success body) ->
        (forall items, body <> JArr items) ->
        getStacks axios self s = (Raised TypeError, s1))
  /\ (forall items,
        settle r = Returned (Either.success (JArr items)) ->
        (exists x, In x items /\ (x = JNull \/ x = JUndefined)) ->
        getStacks axios self s = (Raised TypeError, s1)).
Proof.
  intros Hthis Hstate Hresp s1.
  assert (Hthis1 : heap s1 !! self = Some this) by exact Hthis.
  assert (Hrun : forall res,
             settle r = Returned res ->
             getStacks axios self s =
               Either_map res
                 (fun allStacks =>
                    lift (js_filter
                            (fun stack =>
                               obind (JS.member stack "EndpointId") (fun id =>
                                 Returned (JS.strict_eq id endpoint)))
                            allStacks)) s1).
  { intros res Hres. unfold getStacks. unfold bind at 1.
    rewrite (request_run axios _ _ _ _ _ _ _ Hthis), Hresp. simpl. rewrite Hres.
    fold s1. unfold bind at 1.
    rewrite (endpointId_logged self this endpoint tok s1 Hthis1 Hstate). reflexivity. }
  split; [| split].
  - intros msg Hres. rewrite (Hrun _ Hres). reflexivity.
  - intros body Hres Hshape. rewrite (Hrun _ Hres).
    unfold Either_map, Either.match_, bind, lift.
    destruct body; try reflexivity. exfalso. apply (Hshape items). reflexivity.
  - intros items Hres Hbad. rewrite (Hrun _ Hres).
    unfold Either_map, Either.match_, bind, lift, js_filter.
    rewrite filter_items_nullish; [reflexivity | | | exact Hbad].
    + intros x [-> | ->]; reflexivity.
    + intros x. destruct x; simpl; eauto.
Qed.

End ListingEdges.

Lemma getStacks_unusable_listing_witness :
  let s := boot "http://h" (Some (logged (JNum 2) (JStr "jwt-1")))
             [Axios.Response 200 (JObj [("stacks", JArr [])])] in
  fst (getStacks scripted 0 s) = Raised TypeError.
Proof.
  intros s.
  destruct (getStacks_unusable_listing scripted 0
              (constructor {| baseUrl := "http://h" |}
                 (Some (logged (JNum 2) (JStr "jwt-1"))))
              (JNum 2) (JStr "jwt-1") s
              (Axios.Response 200 (JObj [("stacks", JArr [])])) []
              eq_refl eq_refl eq_refl) as [_ [Hshape _]].
  rewrite (Hshape (JObj [("stacks", JArr [])]) eq_refl); [reflexivity |].
  intros items. discriminate.
Defined.

(** ** More on the login handshake *)

Lemma login_resolve_allocation {World : Type} self this endpointName token endpoints
    (s : @Sys World) :
  heap s !! self = Some this ->
  (heap (snd (login_resolve self endpointName token endpoints s)) = heap s
   /\ forall newApi,
        fst (login_resolve self endpointName token endpoints s)
        <> Returned (Either.success newApi))
  \/
  (exists id,
      heap (snd (login_resolve self endpointName token endpoints s))
      = heap s ++ [constructor (options this) (Some (logged id token))]
      /\ fst (login_resolve self endpointName token endpoints s)
         = Returned (Either.success (length (heap s)))).
Proof.
  intros Hthis. unfold login_resolve, bind, lift.
  destruct (js_find _ endpoints) as [endpoint | e];
    [| left; split; [reflexivity | discriminate]].
  destruct (JS.truthy endpoint); [| left; split; [reflexivity | discriminate]].
  destruct (JS.member endpoint "Id") as [id | e];
    [| left; split; [reflexivity | discriminate]].
  unfold deref. rewrite Hthis. right. exists id. split; reflexivity.
Qed.

Section LoginEdges.

Context {World : Type}.
Variable axios : World -> Axios.Config -> Axios.Result * World.

(** X14: when the POST to /auth succeeds and the GET of /endpoints returns
    an Error, [login] returns that Error: both requests were issued, and
    no client is built. *)
Theorem login_endpoints_failure self this username password endpointName (s : Sys)
    status body token w1 r2 w2 msg :
  heap s !! self = Some this ->
  axios (world s) (auth_config this username password) = (Axios.Response status body, w1) ->
  status_ok status = true ->
  JS.member body "jwt" = Returned token ->
  axios w1 (endpoints_config this token) = (r2, w2) ->
  settle r2 = Returned (Either.error msg) ->
  login axios self username password endpointName s
  = (Returned (Either.error msg),
     {| heap := heap s; world := w2;
        issued := issued s ++ [auth_config this username password;
                               endpoints_config this token] |}).
Proof.
  intros Hthis Hauth Hok Htoken Hlist Hfail.
  rewrite (login_unfold axios self this _ _ _ s Hthis). cbv zeta.
  rewrite Hauth. simpl fst; simpl snd. simpl settle. rewrite Hok, Htoken.
  rewrite Hlist. simpl fst; simpl snd. rewrite Hfail.
  rewrite <- app_assoc. reflexivity.
Qed.

(** X15: [login] never writes to an instance that exists. Either the heap
    after it is the heap before it and the result is no Success; or the
    heap has one more instance at its end, built by the constructor from
    the options of the receiver with a logged state, and the result is the
    Success of that instance. *)
Theorem login_allocates_on_success_only self this username password endpointName
    (s : Sys) :
  heap s !! self = Some this ->
  let run := login axios self username password endpointName s in
  (heap (snd run) = heap s
   /\ forall newApi, fst run <> Returned (Either.success newApi))
  \/
  (exists id token,
      heap (snd run) = heap s ++ [constructor (options this) (Some (logged id token))]
      /\ fst run = Returned (Either.success (length (heap s)))).
Proof.
  intros Hthis run. subst run.
  rewrite (login_unfold axios self this _ _ _ s Hthis). cbv zeta.
  destruct (settle (fst (axios (world s) (auth_config this username password))))
    as [[msg | body] | e]; try (left; split; [reflexivity | discriminate]).
  destruct (JS.member body "jwt") as [token | e];
    [| left; split; [reflexivity | discriminate]].
  destruct (settle (fst (axios _ (endpoints_config this token))))
    as [[msg | endpoints] | e]; try (left; split; [reflexivity | discriminate]).
  match goal with
  | |- context [login_resolve self endpointName token endpoints ?s2] =>
      destruct (login_resolve_allocation self this endpointName token endpoints s2 Hthis)
        as [[Hheap Hres] | [id [Hheap Hres]]]
  end.
  - left. split; [exact Hheap | exact Hres].
  - right. exists id, token. split; [exact Hheap | exact Hres].
Qed.

(** X16: the client that a successful [login] returns, the instance whose
    address is the value of the Success, is ready to use: its
    endpoint is the [Id] of the endpoint found, its API URL is the one a
    client constructed from the same options has, and as long as the token
    issued is truthy every request made through it, for which no other
    token is given, carries that token as bearer. *)
Theorem login_client_carries_token self this username password endpointName (s : Sys)
    status1 body token w1 status2 before endpoint after id w2 :
  heap s !! self = Some this ->
  axios (world s) (auth_config this username password) = (Axios.Response status1 body, w1) ->
  status_ok status1 = true ->
  JS.member body "jwt" = Returned token ->
  JS.truthy token = true ->
  axios w1 (endpoints_config this token)
    = (Axios.Response status2 (JArr (before ++ endpoint :: after)), w2) ->
  status_ok status2 = true ->
  Forall (fun endpoint =>
            exists name, JS.member endpoint "Name" = Returned name
                         /\ name <> JStr endpointName) before ->
  JS.member endpoint "Name" = Returned (JStr endpointName) ->
  JS.member endpoint "Id" = Returned id ->
  let run := login axios self username password endpointName s in
  exists new,
    fst run = Returned (Either.success (length (heap s)))
    /\ heap (snd run) !! length (heap s) = Some new
    /\ get_endpointId new = Returned id
    /\ get_token new = Returned token
    /\ apiUrl new = apiUrl (constructor (options this) None)
    /\ (forall method url,
          Axios.headers (request_config new method url Axios.empty JUndefined)
          = Some [("Authorization", "Bearer " +:+ JS.to_string token)]).
Proof.
  intros Hthis Hauth Hok1 Htoken Htruthy Hlist Hok2 Hbefore Hname Hid run.
  assert (Hrun : run =
            (Returned (Either.success (length (heap s))),
             {| heap := heap s ++ [constructor (options this) (Some (logged id token))];
                world := w2;
                issued := (issued s ++ [auth_config this username password])
                          ++ [endpoints_config this token] |})).
  { subst run. rewrite (login_unfold axios self this _ _ _ s Hthis). cbv zeta.
    rewrite Hauth. simpl fst; simpl snd. simpl settle. rewrite Hok1, Htoken.
    rewrite Hlist. simpl fst; simpl snd. simpl settle. rewrite Hok2.
    rewrite (login_resolve_found self this endpointName token before endpoint after id);
      try assumption.
    reflexivity. }
  exists (constructor (options this) (Some (logged id token))).
  rewrite Hrun. simpl fst; simpl snd. cbn [heap].
  split; [reflexivity |].
  split.
  { rewrite lookup_app_r by lia. rewrite Nat.sub_diag. reflexivity. }
  split; [reflexivity |]. split; [reflexivity |]. split; [reflexivity |].
  intros method url. unfold request_config, JS.or. simpl. rewrite Htruthy. reflexivity.
Qed.

(** X17: a successful answer to the POST to /auth whose body is [null] or
    [undefined] makes [login] throw a TypeError when it reads the token:
    the GET of /endpoints is not issued. A successful answer to the GET of
    /endpoints whose body is no array makes it throw a TypeError as well,
    after both requests. No client is built in either case. *)
Theorem login_unusable_bodies self this username password endpointName (s : Sys)
    status body w1 :
  heap s !! self = Some this ->
  axios (world s) (auth_config this username password) = (Axios.Response status body, w1) ->
  status_ok status = true ->
  (body = JNull \/ body = JUndefined ->
   login axios self username password endpointName s
   = (Raised TypeError,
      {| heap := heap s; world := w1;
         issued := issued s ++ [auth_config this username password] |}))
  /\
  (forall token status2 listing w2,
      JS.member body "jwt" = Returned token ->
      axios w1 (endpoints_config this token) = (Axios.Response status2 listing, w2) ->
      status_ok status2 = true ->
      (forall items, listing <> JArr items) ->
      login axios self username password endpointName s
      = (Raised TypeError,
         {| heap := heap s; world := w2;
            issued := issued s ++ [auth_config this username password;
                                   endpoints_config this token] |})).
Proof.
  intros Hthis Hauth Hok. split.
  - intros Hbody.
    rewrite (login_unfold axios self this _ _ _ s Hthis). cbv zeta.
    rewrite Hauth. simpl fst; simpl snd. simpl settle. rewrite Hok.
    destruct Hbody as [-> | ->]; reflexivity.
  - intros token status2 listing w2 Htoken Hlist Hok2 Hshape.
    rewrite (login_unfold axios self this _ _ _ s Hthis). cbv zeta.
    rewrite Hauth. simpl fst; simpl snd. simpl settle. rewrite Hok, Htoken.
    rewrite Hlist. simpl fst; simpl snd. simpl settle. rewrite Hok2.
    unfold login_resolve, bind, lift, js_find.
    destruct listing; try (rewrite <- app_assoc; reflexivity).
    exfalso. apply (Hshape items). reflexivity.
Qed.

End LoginEdges.

Lemma login_endpoints_failure_witness :
  fst (login scripted 0 "admin" "secret" "local"
         (boot "http://h" None
            [Axios.Response 200 (JObj [("jwt", JStr "jwt-1")]);
             Axios.Response 403 (JObj [("message", JStr "Access denied")])]))
  = Returned (Either.error "403 - Access denied").
Proof.
  rewrite (login_endpoints_failure scripted 0
             (constructor {| baseUrl := "http://h" |} None)
             "admin" "secret" "local"
             (boot "http://h" None
                [Axios.Response 200 (JObj [("jwt", JStr "jwt-1")]);
                 Axios.Response 403 (JObj [("message", JStr "Access denied")])])
             200 (JObj [("jwt", JStr "jwt-1")]) (JStr "jwt-1")
             [Axios.Response 403 (JObj [("message", JStr "Access denied")])]
             (Axios.Response 403 (JObj [("message", JStr "Access denied")])) []
             "403 - Access denied"
             eq_refl eq_refl eq_refl eq_refl eq_refl eq_refl).
  reflexivity.
Defined.

Lemma login_allocates_on_success_only_witness :
  let s := boot "http://h" None [Axios.Response 401 (JStr "Unauthorized")] in
  let run := login scripted 0 "admin" "wrong" "local" s in
  (heap (snd run) = heap s
   /\ forall newApi, fst run <> Returned (Either.success newApi))
  \/
  (exists id token,
      heap (snd run)
      = heap s ++ [constructor {| baseUrl := "http://h" |} (Some (logged id token))]
      /\ fst run = Returned (Either.success (length (heap s)))).
Proof.
  intros s run.
  apply (login_allocates_on_success_only scripted 0
           (constructor {| baseUrl := "http://h" |} None)
           "admin" "wrong" "local" s eq_refl).
Defined.

Lemma login_client_carries_token_witness :
  let s := boot "http://h" None
             [Axios.Response 200 (JObj [("jwt", JStr "jwt-1")]);
              Axios.Response 200 (JArr [JObj [("Id", JNum 7); ("Name", JStr "local")]])] in
  exists new,
    fst (login scripted 0 "admin" "secret" "local" s) = Returned (Either.success 1%nat)
    /\ heap (snd (login scripted 0 "admin" "secret" "local" s)) !! 1%nat = Some new
    /\ Axios.headers (request_config new "GET" "/stacks" Axios.empty JUndefined)
       = Some [("Authorization", "Bearer jwt-1")].
Proof.
  intros s.
  destruct (login_client_carries_token scripted 0
              (constructor {| baseUrl := "http://h" |} None)
              "admin" "secret" "local" s
              200 (JObj [("jwt", JStr "jwt-1")]) (JStr "jwt-1")
              [Axios.Response 200 (JArr [JObj [("Id", JNum 7); ("Name", JStr "local")]])]
              200 [] (JObj [("Id", JNum 7); ("Name", JStr "local")]) [] (JNum 7) []
              eq_refl eq_refl eq_refl eq_refl eq_refl eq_refl eq_refl
              (List.Forall_nil _) eq_refl eq_refl)
    as [new [Hres [Hnew [_ [_ [_ Hheaders]]]]]].
  exists new. split; [exact Hres |]. split; [exact Hnew | apply Hheaders].
Defined.

Lemma login_unusable_bodies_witness :
  let s := boot "http://h" None [Axios.Response 200 JNull; Axios.Response 200 (JArr [])] in
  fst (login scripted 0 "admin" "secret" "local" s) = Raised TypeError
  /\ List.map Axios.url (issued (snd (login scripted 0 "admin" "secret" "local" s)))
     = [Some "http://h/api/auth"].
Proof.
  intros s.
  destruct (login_unusable_bodies scripted 0
              (constructor {| baseUrl := "http://h" |} None)
              "admin" "secret" "local" s 200 JNull [Axios.Response 200 (JArr [])]
              eq_refl eq_refl eq_refl) as [Hnull _].
  rewrite (Hnull (or_introl eq_refl)). split; reflexivity.
Defined.

Section LoginFirstRequest.

Context {World : Type}.
Variable axios : World -> Axios.Config -> Axios.Result * World.

Lemma login_issues_auth_first self this username password endpointName (s : Sys) :
  heap s !! self = Some this ->
  exists rest,
    issued (snd (login axios self username password endpointName s))
    = issued s ++ auth_config this username password :: rest.
Proof.
  intros Hthis. rewrite (login_unfold axios self this _ _ _ s Hthis). cbv zeta.
  destruct (settle (fst (axios (world s) (auth_config this username password))))
    as [[msg | body] | e]; try (exists []; reflexivity).
  destruct (JS.member body "jwt") as [token | e]; [| exists []; reflexivity].
  exists [endpoints_config this token].
  destruct (settle (fst (axios _ (endpoints_config this token))))
    as [[msg | endpoints] | e]; simpl; try (rewrite <- app_assoc; reflexivity).
  match goal with
  | |- context [login_resolve self endpointName token endpoints ?s2] =>
      destruct (login_resolve_frame self endpointName token endpoints s2) as [_ Hissued]
  end.
  rewrite Hissued. simpl. rewrite <- app_assoc. reflexivity.
Qed.

(** X18: whatever the remote answers, the requests that [login] issues
    begin with a POST to /auth under the API URL whose data are the user
    name and the password, in that order, and whose URL and parameters
    hold neither. That request goes out without Authorization header only
    from a client that is not logged (or logged with a falsy token):
    called on a logged client, [login] sends the token of the session as
    bearer with the credentials. *)
Theorem login_first_request self this (username password endpointName : string)
    (s : Sys) :
  heap s !! self = Some this ->
  exists first rest,
    issued (snd (login axios self username password endpointName s))
    = issued s ++ first :: rest
    /\ Axios.method first = Some "POST"
    /\ Axios.url first = Some (apiUrl this +:+ "/auth")
    /\ Axios.data first
       = Some (JObj [("Username", JStr username); ("Password", JStr password)])
    /\ Axios.params first = None
    /\ Axios.headers first
       = Some (match state this with
               | not_logged => []
               | logged _ session =>
                   if JS.truthy session
                   then [("Authorization", "Bearer " +:+ JS.to_string session)]
                   else []
               end).
Proof.
  intros Hthis.
  destruct (login_issues_auth_first self this username password endpointName s Hthis)
    as [rest Hissued].
  exists (auth_config this username password), rest.
  split; [exact Hissued |].
  unfold auth_config, request_config, JS.or. simpl.
  repeat split. destruct (state this) as [| eid session]; reflexivity.
Qed.

End LoginFirstRequest.

Lemma login_first_request_witness :
  let s := boot "http://h" (Some (logged (JNum 2) (JStr "jwt-0")))
             [Axios.Response 401 (JStr "Unauthorized")] in
  exists first rest,
    issued (snd (login scripted 0 "admin" "wrong" "local" s)) = first :: rest
    /\ Axios.url first = Some "http://h/api/auth"
    /\ Axios.headers first = Some [("Authorization", "Bearer jwt-0")].
Proof.
  intros s.
  destruct (login_first_request scripted 0
              (constructor {| baseUrl := "http://h" |}
                 (Some (logged (JNum 2) (JStr "jwt-0"))))
              "admin" "wrong" "local" s eq_refl)
    as [first [rest [Hissued [_ [Hurl [_ [_ Hheaders]]]]]]].
  exists first, rest. split; [exact Hissued |]. split; [exact Hurl | exact Hheaders].
Defined.

Section EndpointOperations.

Context {World : Type}.
Variable axios : World -> Axios.Config -> Axios.Result * World.

(** X19: on a logged client the operations on the endpoint issue one
    request each, under the API URL, and return what [request] makes of the
    answer: [startContainer] and [stopContainer] a POST without data to the
    start or stop action of the container under the endpoint of the
    session; [getContainers] a GET whose parameters are the flag [all];
    [createStack] a POST of the stack whose query names the endpoint of the
    session, the method repository and the type 2, all three in every
    call. *)
Theorem endpoint_operations_requests self this (endpoint : Z) (tok : JsVal) (s : Sys)
    (containerId : string) (newStackApi : JsVal) (all : bool) :
  heap s !! self = Some this ->
  state this = logged (JNum endpoint) tok ->
  let run (config : Axios.Config) :=
    (settle (fst (axios (world s) config)),
     {| heap := heap s; world := snd (axios (world s) config);
        issued := issued s ++ [config] |}) in
  let e := JS.number_to_string endpoint in
  (exists config,
      startContainer axios self containerId s = run config
      /\ Axios.method config = Some "POST"
      /\ Axios.data config = None
      /\ Axios.url config
         = Some (apiUrl this +:+ "/endpoints/" +:+ e +:+ "/docker/containers/"
                   +:+ containerId +:+ "/start"))
  /\ (exists config,
        stopContainer axios self containerId s = run config
        /\ Axios.method config = Some "POST"
        /\ Axios.data config = None
        /\ Axios.url config
           = Some (apiUrl this +:+ "/endpoints/" +:+ e +:+ "/docker/containers/"
                     +:+ containerId +:+ "/stop"))
  /\ (exists config,
        getContainers axios self all s = run config
        /\ Axios.method config = Some "GET"
        /\ Axios.params config = Some (JObj [("all", JBool all)])
        /\ Axios.url config
           = Some (apiUrl this +:+ "/endpoints/" +:+ e +:+ "/docker/containers/json"))
  /\ (exists config,
        createStack axios self newStackApi s = run config
        /\ Axios.method config = Some "POST"
        /\ Axios.data config = Some newStackApi
        /\ Axios.url config
           = Some (apiUrl this +:+ "/stacks?endpointId=" +:+ e
                     +:+ "&method=repository&type=2")).
Proof.
  intros Hthis Hstate run e.
  unfold startContainer, stopContainer, getContainers, createStack, bind.
  rewrite (endpointId_logged self this (JNum endpoint) tok s Hthis Hstate).
  repeat rewrite (request_run axios _ _ _ _ _ _ _ Hthis).
  split; [| split; [| split]]; eexists; (split; [reflexivity |]); repeat split.
Qed.

End EndpointOperations.

Lemma endpoint_operations_requests_witness :
  let s := boot "http://h" (Some (logged (JNum 2) (JStr "jwt-1")))
             [Axios.Response 200 (JObj [("Id", JNum 31)])] in
  fst (createStack scripted 0 (JObj [("Name", JStr "demo")]) s)
    = Returned (Either.success (JObj [("Id", JNum 31)]))
  /\ List.map Axios.url (issued (snd (createStack scripted 0 (JObj [("Name", JStr "demo")]) s)))
     = [Some "http://h/api/stacks?endpointId=2&method=repository&type=2"].
Proof.
  intros s.
  destruct (endpoint_operations_requests scripted 0
              (constructor {| baseUrl := "http://h" |}
                 (Some (logged (JNum 2) (JStr "jwt-1"))))
              2 (JStr "jwt-1") s "c0ffee" (JObj [("Name", JStr "demo")]) true
              eq_refl eq_refl) as [_ [_ [_ [config [Hrun [_ [_ Hurl]]]]]]].
  rewrite Hrun. split; [reflexivity |].
  simpl. rewrite Hurl. reflexivity.
Defined.
